(** * RoboBrowser: the curl transport, page states and the history cursor

    A shallow embedding of [robobrowser/browser.py].  Python objects become
    records, attribute assignment becomes explicit state passing, and a
    raised exception becomes the [Raise] case of [result].  The libraries the
    module calls into (zlib, BeautifulSoup, urljoin, urlencode and the
    network behind pycurl) are collaborators given as type classes or as
    arguments. *)

From Stdlib Require Import ZArith List String Ascii Bool Lia.
From stdpp Require Import base option list gmap strings.

Import ListNotations.
Local Open Scope string_scope.
Local Open Scope list_scope.

(** ** Python values used by the module *)

Definition bytes := list Byte.byte.

Inductive exn :=
| RoboError (msg : string)      (* exceptions.RoboError(msg) *)
| NameError (name : string)     (* a global name that is not bound *)
| TypeError
| ZlibError                     (* zlib.error *)
| PycurlError.                  (* pycurl.error *)

Inductive result (A : Type) :=
| Ok (a : A)
| Raise (e : exn).
Arguments Ok {A} a.
Arguments Raise {A} e.

(** The three messages [RoboError] is raised with; the error kinds of the
    history navigator. *)
Definition NoStateError : exn := RoboError "No state".
Definition IndexOutOfRangeError : exn := RoboError "Index out of range".
Definition HistoryDisabledError : exn := RoboError "Not tracking history".

(** [l[:stop]], [l[start:]] and [l[i]] with Python's reading of negative
    positions (counted from the end, clamped for slices, [IndexError] for
    items). *)
Definition slice_bound (len : nat) (i : Z) : nat :=
  if (i <? 0)%Z then Z.to_nat (Z.max 0 (Z.of_nat len + i)) else Z.to_nat i.

Definition slice_to {A} (l : list A) (stop : Z) : list A :=
  take (slice_bound (length l) stop) l.

Definition slice_from {A} (l : list A) (start : Z) : list A :=
  drop (slice_bound (length l) start) l.

Definition getitem {A} (l : list A) (i : Z) : option A :=
  if (i <? 0)%Z
  then if (Z.of_nat (length l) + i <? 0)%Z then None
       else l !! Z.to_nat (Z.of_nat (length l) + i)
  else l !! Z.to_nat i.

(** ** Strings *)

Definition CR : ascii := ascii_of_nat 13.
Definition LF : ascii := ascii_of_nat 10.
Definition colon : ascii := ascii_of_nat 58.

(** [c.isspace()] on the ASCII range: TAB..CR, FS..US and the space. *)
Definition isspace (c : ascii) : bool :=
  let n := nat_of_ascii c in
  ((9 <=? n)%nat && (n <=? 13)%nat) || ((28 <=? n)%nat && (n <=? 32)%nat).

Definition lower_char (c : ascii) : ascii :=
  let n := nat_of_ascii c in
  if (65 <=? n)%nat && (n <=? 90)%nat then ascii_of_nat (n + 32) else c.

Definition upper_char (c : ascii) : ascii :=
  let n := nat_of_ascii c in
  if (97 <=? n)%nat && (n <=? 122)%nat then ascii_of_nat (n - 32) else c.

Fixpoint lower (s : string) : string :=
  match s with
  | EmptyString => EmptyString
  | String c t => String (lower_char c) (lower t)
  end.

(** [s.upper()] on ASCII text. *)
Fixpoint upper_ascii (s : string) : string :=
  match s with
  | EmptyString => EmptyString
  | String c t => String (upper_char c) (upper_ascii t)
  end.

(** A string that holds ASCII characters only. *)
Fixpoint is_ascii (s : string) : bool :=
  match s with
  | EmptyString => true
  | String c t => (nat_of_ascii c <? 128)%nat && is_ascii t
  end.

Fixpoint lstrip (s : string) : string :=
  match s with
  | EmptyString => EmptyString
  | String c t => if isspace c then lstrip t else s
  end.

Fixpoint rstrip (s : string) : string :=
  match s with
  | EmptyString => EmptyString
  | String c t =>
      match rstrip t with
      | EmptyString => if isspace c then EmptyString else String c EmptyString
      | t' => String c t'
      end
  end.

(** [s.strip()] *)
Definition strip (s : string) : string := rstrip (lstrip s).

(** [s.split("\r\n")]: [cur] holds the characters of the line being read. *)
Fixpoint split_crlf_from (cur : string) (s : string) : list string :=
  match s with
  | EmptyString => [cur]
  | String a t =>
      match t with
      | String b r =>
          if Ascii.eqb a CR && Ascii.eqb b LF
          then cur :: split_crlf_from EmptyString r
          else split_crlf_from (String.append cur (String a EmptyString)) t
      | EmptyString => split_crlf_from (String.append cur (String a EmptyString)) t
      end
  end.

Definition split_crlf (s : string) : list string := split_crlf_from EmptyString s.

(** [":" in line] *)
Fixpoint has_colon (s : string) : bool :=
  match s with
  | EmptyString => false
  | String c t => Ascii.eqb c colon || has_colon t
  end.

(** [line.split(":", 1)] for a line that holds a colon: the text before the
    first colon and the text after it.  [None] when there is no colon. *)
Fixpoint split_colon (s : string) : option (string * string) :=
  match s with
  | EmptyString => None
  | String c t =>
      if Ascii.eqb c colon then Some (EmptyString, t)
      else match split_colon t with
           | Some (name, value) => Some (String c name, value)
           | None => None
           end
  end.

Definition string_eqb (a b : string) : bool := bool_decide (a = b).

(** ** Collaborators outside the module *)

(** [zlib]: a decompression object is a value of [zobj];
    [zlib_decompressobj wbits] is [zlib.decompressobj(wbits)] and
    [zobj_decompress o data] is [o.decompress(data)], [None] when it raises
    [zlib.error], otherwise the output and the object after the call. *)
Class Zlib := {
  zobj : Type;
  zlib_decompressobj : Z -> zobj;
  zobj_decompress : zobj -> bytes -> option (bytes * zobj)
}.

Definition MAX_WBITS : Z := 15.

(** [bs4]: [BeautifulSoup content parser] is
    [BeautifulSoup(content, features=parser)], a document handle. *)
Class Bs4 := {
  Soup : Type;
  BeautifulSoup : bytes -> option string -> Soup
}.

(** The library functions the browser applies to text it did not decode
    itself: [urlparse.urljoin], [urllib.parse.urlencode] and [str.upper].
    A form's method is any Python string, held here as the bytes of its
    encoding, and [upper] is Python's case mapping of the text, with its
    Unicode tables; on ASCII text it is the mapping of a-z to A-Z. *)
Class UrlLib := {
  urljoin : string -> string -> string;
  urlencode : list (string * string) -> string;
  upper : string -> string;
  upper_on_ascii : forall s, is_ascii s = true -> upper s = upper_ascii s
}.

(** ** Names bound in the module *)

(** The imports and top-level definitions of [browser.py], in source order:
    the names a function body of the module can read as globals. *)
Definition module_globals : list string :=
  [ "re"; "BeautifulSoup"; "Tag"; "helpers"; "exceptions"; "urlparse";
    "Form"; "RoboHTTPAdapter"; "retry"; "pycurl"; "curl"; "io"; "urlencode";
    "zlib"; "_link_ptn"; "_form_ptn"; "DeflateDecoder"; "_get_decoder";
    "RoboCurl"; "RoboResponse"; "RoboState"; "RoboBrowser" ].

(** Reading a global: [NameError] when the name is not bound. *)
Definition load_global (name : string) : result unit :=
  if bool_decide (name ∈ module_globals) then Ok tt else Raise (NameError name).

(** ** DeflateDecoder *)

Record DeflateDecoder `{Zlib} := {
  _first_try : bool;
  _data : option bytes;       (* [None] once the buffer is dropped *)
  _obj : zobj
}.

(** [DeflateDecoder()]: [__init__] sets [_first_try], then evaluates
    [binary_type()], then builds the zlib object.  [binary_type] is read as
    a global of the module. *)
Definition DeflateDecoder_init `{Zlib} : result DeflateDecoder :=
  match load_global "binary_type" with
  | Raise e => Raise e
  | Ok _ =>
      Ok {| _first_try := true; _data := Some []; _obj := zlib_decompressobj MAX_WBITS |}
  end.

(** [self._obj.decompress(data)], the object replaced by its next state. *)
Definition obj_decompress `{Zlib} (self : DeflateDecoder) (data : bytes)
  : DeflateDecoder * result bytes :=
  match zobj_decompress (_obj self) data with
  | Some (out, o) =>
      ({| _first_try := _first_try self; _data := _data self; _obj := o |}, Ok out)
  | None => (self, Raise ZlibError)
  end.

(** [DeflateDecoder.decompress].  The call [self.decompress(self._data)] in
    the handler runs with [_first_try] already [False], so it is the first
    branch, [obj_decompress]; the [finally] clause then drops the buffer. *)
Definition decompress `{Zlib} (self : DeflateDecoder) (data : bytes)
  : DeflateDecoder * result bytes :=
  if negb (_first_try self) then obj_decompress self data
  else
    match _data self with
    | None => (self, Raise TypeError)
    | Some buf =>
        let buffered := buf ++ data in
        match zobj_decompress (_obj self) data with
        | Some (out, o) =>
            ({| _first_try := true; _data := Some buffered; _obj := o |}, Ok out)
        | None =>
            let raw := {| _first_try := false; _data := Some buffered;
                          _obj := zlib_decompressobj (- MAX_WBITS) |} in
            let '(self', r) := obj_decompress raw buffered in
            ({| _first_try := _first_try self'; _data := None; _obj := _obj self' |}, r)
        end
    end.

(** The decoder [DeflateDecoder.__init__] would build were [binary_type]
    bound to [bytes], as in the module this class is taken from. *)
Definition DeflateDecoder_bound `{Zlib} : DeflateDecoder :=
  {| _first_try := true; _data := Some []; _obj := zlib_decompressobj MAX_WBITS |}.

(** What [_get_decoder] returns: a bare zlib object for gzip, a
    [DeflateDecoder] otherwise. *)
Inductive Decoder `{Zlib} :=
| GzipDecoder (o : zobj)
| DeflateDec (d : DeflateDecoder).

Definition _get_decoder `{Zlib} (mode : string) : result Decoder :=
  if string_eqb mode "gzip" then Ok (GzipDecoder (zlib_decompressobj (16 + MAX_WBITS)))
  else match DeflateDecoder_init with
       | Ok d => Ok (DeflateDec d)
       | Raise e => Raise e
       end.

(** [decoder.decompress(payload)] for either kind of decoder. *)
Definition decoder_decompress `{Zlib} (d : Decoder) (data : bytes) : result bytes :=
  match d with
  | GzipDecoder o =>
      match zobj_decompress o data with
      | Some (out, _) => Ok out
      | None => Raise ZlibError
      end
  | DeflateDec dd => snd (decompress dd data)
  end.

(** ** The pycurl handle *)

(** The [headers] argument of the transport calls, as pycurl takes it for
    [HTTPHEADER]: omitted ([None]) or a list of header lines.  The one call
    that passes a dict instead, from [submit_form], is [_do_request_dict]. *)
Inductive PyHeaders :=
| NoHeaders
| HeaderList (l : list string).

(** [if headers:] *)
Definition headers_truthy (h : PyHeaders) : bool :=
  match h with
  | NoHeaders => false
  | HeaderList l => negb (bool_decide (l = []))
  end.

(** [for header in headers] *)
Definition headers_iter (h : PyHeaders) : list string :=
  match h with
  | NoHeaders => []
  | HeaderList l => l
  end.

Inductive HttpMethod := GET | POST.

(** The options of a handle that the module sets, and the effective URL it
    reads back.  An option holds what [setopt] was given. *)
Record Curl := {
  TIMEOUT : Z;
  FOLLOWLOCATION : Z;
  MAXREDIRS : Z;
  COOKIEFILE : string;
  ENCODING : string;
  USERAGENT : option string;
  URL : string;
  HTTPHEADER : PyHeaders;
  REQUEST : HttpMethod;         (* HTTPGET=1 or POST=1, whichever came last *)
  POSTFIELDS : string;
  EFFECTIVE_URL : string
}.

Inductive CurlOpt :=
| OptTimeout (n : Z)
| OptFollowLocation (n : Z)
| OptMaxRedirs (n : Z)
| OptCookieFile (f : string)
| OptEncoding (e : string)
| OptUserAgent (ua : string)
| OptUrl (u : string)
| OptHttpHeader (h : PyHeaders)
| OptHttpGet
| OptPost
| OptPostFields (f : string).

(** [pycurl.Curl()] *)
Definition Curl_new : Curl :=
  {| TIMEOUT := 0; FOLLOWLOCATION := 0; MAXREDIRS := -1; COOKIEFILE := "";
     ENCODING := ""; USERAGENT := None; URL := ""; HTTPHEADER := NoHeaders;
     REQUEST := GET; POSTFIELDS := ""; EFFECTIVE_URL := "" |}.

(** [c.setopt(option, value)] *)
Definition setopt (c : Curl) (o : CurlOpt) : Curl :=
  let upd t f m k e ua u h r p :=
    {| TIMEOUT := t; FOLLOWLOCATION := f; MAXREDIRS := m; COOKIEFILE := k;
       ENCODING := e; USERAGENT := ua; URL := u; HTTPHEADER := h; REQUEST := r;
       POSTFIELDS := p; EFFECTIVE_URL := EFFECTIVE_URL c |} in
  let 'Build_Curl t f m k e ua u h r p _ := c in
  match o with
  | OptTimeout n => upd n f m k e ua u h r p
  | OptFollowLocation n => upd t n m k e ua u h r p
  | OptMaxRedirs n => upd t f n k e ua u h r p
  | OptCookieFile x => upd t f m x e ua u h r p
  | OptEncoding x => upd t f m k x ua u h r p
  | OptUserAgent x => upd t f m k e (Some x) u h r p
  | OptUrl x => upd t f m k e ua x h r p
  | OptHttpHeader x => upd t f m k e ua u x r p
  | OptHttpGet => upd t f m k e ua u h GET p
  | OptPost => upd t f m k e ua u h POST p
  | OptPostFields x => upd t f m k e ua u h r x
  end.

(** What one [c.perform()] does, as decided by the network: the header block
    handed to the header callback (already decoded), the effective URL of the
    handle afterwards, and the body written to the buffer; [t_body = None]
    when [perform] raises [pycurl.error]. *)
Record Transfer := {
  t_hdr : string;
  t_url : string;
  t_body : option bytes
}.

Definition set_effective_url (c : Curl) (u : string) : Curl :=
  {| TIMEOUT := TIMEOUT c; FOLLOWLOCATION := FOLLOWLOCATION c;
     MAXREDIRS := MAXREDIRS c; COOKIEFILE := COOKIEFILE c;
     ENCODING := ENCODING c; USERAGENT := USERAGENT c; URL := URL c;
     HTTPHEADER := HTTPHEADER c; REQUEST := REQUEST c;
     POSTFIELDS := POSTFIELDS c; EFFECTIVE_URL := u |}.

(** ** RoboCurl *)

Record RoboCurl := {
  c : Curl;
  hdr : string;
  headers : gmap string string;
  payload : bytes;
  status_line : option string   (* not set before the first [parse_headers] *)
}.

Definition with_c (self : RoboCurl) (x : Curl) : RoboCurl :=
  {| c := x; hdr := hdr self; headers := headers self; payload := payload self;
     status_line := status_line self |}.
Definition with_hdr (self : RoboCurl) (x : string) : RoboCurl :=
  {| c := c self; hdr := x; headers := headers self; payload := payload self;
     status_line := status_line self |}.
Definition with_headers (self : RoboCurl) (x : gmap string string) : RoboCurl :=
  {| c := c self; hdr := hdr self; headers := x; payload := payload self;
     status_line := status_line self |}.
Definition with_payload (self : RoboCurl) (x : bytes) : RoboCurl :=
  {| c := c self; hdr := hdr self; headers := headers self; payload := x;
     status_line := status_line self |}.
Definition with_status_line (self : RoboCurl) (x : option string) : RoboCurl :=
  {| c := c self; hdr := hdr self; headers := headers self; payload := payload self;
     status_line := x |}.

(** [RoboCurl()]: [__init__] runs [reset] on a session that has no handle
    yet.  The empty [payload] string is the empty byte sequence here. *)
Definition RoboCurl_new : RoboCurl :=
  let h := Curl_new in
  let h := setopt h (OptTimeout 40) in
  let h := setopt h (OptFollowLocation 1) in
  let h := setopt h (OptMaxRedirs 5) in
  let h := setopt h (OptCookieFile "/dev/null") in
  let h := setopt h (OptEncoding "gzip, deflate") in
  {| c := h; hdr := ""; headers := ∅; payload := []; status_line := None |}.

Definition set_option (self : RoboCurl) (o : CurlOpt) : RoboCurl :=
  with_c self (setopt (c self) o).

Definition set_timeout (self : RoboCurl) (timeout : Z) : RoboCurl :=
  with_c self (setopt (c self) (OptTimeout timeout)).

(** One turn of the loop of [parse_headers]: the flag [first], the status
    line recorded so far and the dict [d]. *)
Definition parse_headers_step
  (acc : bool * option string * gmap string string) (line : string)
  : bool * option string * gmap string string :=
  let '(first, status, d) := acc in
  let status := if first then Some line else status in
  match split_colon line with
  | None => (false, status, d)                      (* [":" not in line]: continue *)
  | Some (name, value) => (false, status, <[lower name := strip value]> d)
  end.

(** [RoboCurl.parse_headers]: the session with [status_line] assigned, and
    the dict returned. *)
Definition parse_headers (self : RoboCurl) (block : string)
  : RoboCurl * gmap string string :=
  let '(_, status, d) :=
    fold_left parse_headers_step (split_crlf block) (true, status_line self, ∅) in
  (with_status_line self status, d).

(** The name part of each header that holds a colon, with the colon kept:
    the list [empty_headers] of [_do_request]. *)
Fixpoint empty_headers (hs : list string) : list string :=
  match hs with
  | [] => []
  | header :: rest =>
      match split_colon header with
      | None => empty_headers rest
      | Some (name, _) => String.append name ":" :: empty_headers rest
      end
  end.

(** [RoboCurl._do_request], with the outcome [net] of [self.c.perform()]. *)
Definition _do_request `{Zlib} (self : RoboCurl) (url : string)
  (hs : PyHeaders) (net : Transfer) : RoboCurl * result bytes :=
  let self := with_headers (with_hdr self "") ∅ in
  let self := with_c self (setopt (c self) (OptUrl url)) in
  let self := if headers_truthy hs
              then with_c self (setopt (c self) (OptHttpHeader hs)) else self in
  (* perform: the header callback appends to [hdr] *)
  let self := with_hdr self (String.append (hdr self) (t_hdr net)) in
  let self := with_c self (set_effective_url (c self) (t_url net)) in
  match t_body net with
  | None => (self, Raise PycurlError)
  | Some body =>
      let self := with_payload self body in
      let self := if headers_truthy hs
                  then with_c self (setopt (c self)
                         (OptHttpHeader (HeaderList (empty_headers (headers_iter hs)))))
                  else self in
      let '(self, d) := parse_headers self (hdr self) in
      let self := with_headers self d in
      let encoding := default "" (headers self !! "content-encoding") in
      if string_eqb encoding "gzip" || string_eqb encoding "deflate" then
        match _get_decoder encoding with
        | Raise e => (self, Raise e)
        | Ok decoder =>
            match decoder_decompress decoder (payload self) with
            | Raise e => (self, Raise e)
            | Ok out => (with_payload self out, Ok out)
            end
        end
      else (self, Ok (payload self))
  end.

(** [RoboCurl._do_request] when [headers] is a dict [d], kept in insertion
    order.  An empty dict is falsy: both [if headers:] tests fail and the
    call goes as it does without headers.  For a dict that is not empty,
    [setopt(HTTPHEADER, headers)] raises [TypeError], pycurl taking a list or
    a tuple there: the header buffers are reset and the URL is set by then,
    and no transfer is performed. *)
Definition _do_request_dict `{Zlib} (self : RoboCurl) (url : string)
  (d : list (string * string)) (net : Transfer) : RoboCurl * result bytes :=
  match d with
  | [] => _do_request self url NoHeaders net
  | _ :: _ =>
      let self := with_headers (with_hdr self "") ∅ in
      let self := with_c self (setopt (c self) (OptUrl url)) in
      (self, Raise TypeError)
  end.

(** [RoboCurl.get] *)
Definition get `{Zlib} (self : RoboCurl) (url : string) (hs : PyHeaders)
  (net : Transfer) : RoboCurl * result bytes :=
  _do_request (with_c self (setopt (c self) OptHttpGet)) url hs net.

(** [RoboCurl.post] *)
Definition post `{Zlib} `{UrlLib} (self : RoboCurl) (url : string)
  (params : list (string * string)) (hs : PyHeaders) (net : Transfer)
  : RoboCurl * result bytes :=
  let self := with_c self (setopt (c self) OptPost) in
  let self := with_c self (setopt (c self) (OptPostFields (urlencode params))) in
  _do_request self url hs net.

(** [RoboCurl.url] *)
Definition session_url (self : RoboCurl) : string := EFFECTIVE_URL (c self).

(** ** RoboResponse and RoboState *)

Record RoboResponse := {
  content : bytes;
  resp_url : string;
  resp_status_line : string;
  resp_headers : gmap string string
}.

(** [RoboResponse(session)] *)
Definition RoboResponse_init (session : RoboCurl) : RoboResponse :=
  {| content := payload session;
     resp_url := session_url session;
     resp_status_line := "";
     resp_headers := headers session |}.

(** A state refers back to its browser only to read [browser.parser]; the
    accessor below takes that parser as an argument. *)
Record RoboState `{Bs4} := {
  response : RoboResponse;
  url : string;
  _parsed : option Soup
}.

(** [RoboState(browser, response)] *)
Definition RoboState_init `{Bs4} (r : RoboResponse) : RoboState :=
  {| response := r; url := resp_url r; _parsed := None |}.

(** One call of the [BeautifulSoup] constructor: its two arguments. *)
Definition ParseCall : Type := bytes * option string.

(** [RoboState.parsed]: the handle returned, the state after the access and
    the constructor calls made so far ([calls] with this access's call
    appended, when it makes one). *)
Definition parsed `{Bs4} (parser : option string) (self : RoboState)
  (calls : list ParseCall) : Soup * RoboState * list ParseCall :=
  match _parsed self with
  | None =>
      let doc := BeautifulSoup (content (response self)) parser in
      (doc,
       {| response := response self; url := url self; _parsed := Some doc |},
       calls ++ [(content (response self), parser)])
  | Some doc => (doc, self, calls)
  end.

(** [n] accesses in a row: the handles they return, the final state and the
    constructor calls. *)
Fixpoint parsed_times `{Bs4} (n : nat) (parser : option string)
  (self : RoboState) (calls : list ParseCall)
  : list Soup * RoboState * list ParseCall :=
  match n with
  | O => ([], self, calls)
  | S n' =>
      let '(doc, self, calls) := parsed parser self calls in
      let '(docs, self, calls) := parsed_times n' parser self calls in
      (doc :: docs, self, calls)
  end.

(** ** RoboBrowser *)

(** The values the [history] argument takes: [True], [False], [None] or an
    integer. *)
Inductive History :=
| HistTrue
| HistFalse
| HistNone
| HistInt (n : Z).

(** [not history] *)
Definition history_falsy (h : History) : bool :=
  match h with
  | HistTrue => false
  | HistFalse | HistNone => true
  | HistInt n => (n =? 0)%Z
  end.

Record RoboBrowser `{Bs4} := {
  session : RoboCurl;
  parser : option string;
  history : History;
  _maxlen : option Z;
  _states : list RoboState;
  _cursor : Z
}.

Definition with_session `{Bs4} (self : RoboBrowser) (s : RoboCurl) : RoboBrowser :=
  {| session := s; parser := parser self; history := history self;
     _maxlen := _maxlen self; _states := _states self; _cursor := _cursor self |}.

Definition with_history_stack `{Bs4} (self : RoboBrowser)
  (states : list RoboState) (cursor : Z) : RoboBrowser :=
  {| session := session self; parser := parser self; history := history self;
     _maxlen := _maxlen self; _states := states; _cursor := cursor |}.

(** [RoboBrowser.__init__] without retries ([tries] left at [None]; the
    retry decorator lives in [helpers]). *)
Definition RoboBrowser_init `{Bs4} (session : option RoboCurl)
  (parser user_agent : option string) (history : History)
  (timeout : option Z) (allow_redirects : bool) : RoboBrowser :=
  let s := default RoboCurl_new session in
  let s := match user_agent with
           | Some ua => set_option s (OptUserAgent ua)
           | None => s
           end in
  let s := match timeout with
           | Some t => set_timeout s t
           | None => s
           end in
  let s := set_option s (OptFollowLocation (if allow_redirects then 1 else 0)) in
  {| session := s; parser := parser; history := history;
     _maxlen := match history with
                | HistTrue => None
                | HistInt n => if history_falsy history then Some 1%Z else Some n
                | _ => Some 1%Z
                end;
     _states := []; _cursor := (-1)%Z |}.

(** The [state] property. *)
Definition state `{Bs4} (self : RoboBrowser) : result RoboState :=
  if (_cursor self =? -1)%Z then Raise NoStateError
  else match getitem (_states self) (_cursor self) with
       | Some st => Ok st
       | None => Raise IndexOutOfRangeError
       end.

(** The [url] property: [self.state.url]. *)
Definition browser_url `{Bs4} (self : RoboBrowser) : result string :=
  match state self with
  | Ok st => Ok (url st)
  | Raise e => Raise e
  end.

(** [RoboBrowser._build_url] *)
Definition _build_url `{Bs4} `{UrlLib} (self : RoboBrowser) (u : string)
  : result string :=
  match browser_url self with
  | Ok base => Ok (urljoin base u)
  | Raise e => Raise e
  end.

(** [if self._maxlen:] with the integer bound to test against. *)
Definition maxlen_truthy (m : option Z) : option Z :=
  match m with
  | Some n => if (n =? 0)%Z then None else Some n
  | None => None
  end.

(** [RoboBrowser._update_state].  The argument of the method is not read:
    the new response is built from the session. *)
Definition _update_state `{Bs4} (self : RoboBrowser) : RoboBrowser :=
  (* Clear trailing states *)
  let states := slice_to (_states self) (_cursor self + 1) in
  (* Append new state *)
  let response := RoboResponse_init (session self) in
  let st := RoboState_init response in
  let states := states ++ [st] in
  let cursor := (_cursor self + 1)%Z in
  (* Clear leading states *)
  match maxlen_truthy (_maxlen self) with
  | Some maxlen =>
      let decrement := (Z.of_nat (length states) - maxlen)%Z in
      if (decrement >? 0)%Z
      then with_history_stack self (slice_from states decrement) (cursor - decrement)
      else with_history_stack self states cursor
  | None => with_history_stack self states cursor
  end.

(** [RoboBrowser._traverse] *)
Definition _traverse `{Bs4} (self : RoboBrowser) (n : Z)
  : RoboBrowser * result unit :=
  if history_falsy (history self) then (self, Raise HistoryDisabledError)
  else
    let cursor := (_cursor self + n)%Z in
    if (cursor >=? Z.of_nat (length (_states self)))%Z || (cursor <? 0)%Z
    then (self, Raise IndexOutOfRangeError)
    else (with_history_stack self (_states self) cursor, Ok tt).

(** [RoboBrowser.back] *)
Definition back `{Bs4} (self : RoboBrowser) (n : Z) : RoboBrowser * result unit :=
  _traverse self (-1 * n).

(** [RoboBrowser.forward] *)
Definition forward `{Bs4} (self : RoboBrowser) (n : Z) : RoboBrowser * result unit :=
  _traverse self n.

(** [RoboBrowser.open]; [hs] is the [headers] keyword, when given. *)
Definition open `{Zlib} `{Bs4} (self : RoboBrowser) (u : string)
  (hs : PyHeaders) (net : Transfer) : RoboBrowser * result unit :=
  let '(s, r) := get (session self) u hs net in
  let self := with_session self s in
  match r with
  | Raise e => (self, Raise e)
  | Ok _ => (_update_state self, Ok tt)
  end.

Definition dquote : string := String (ascii_of_nat 34) EmptyString.

(** The message of the error for a link without [href]. *)
Definition MissingAttributeError : exn :=
  RoboError (String.append "Link element must have "
              (String.append dquote (String.append "href"
                (String.append dquote " attribute")))).

(** [RoboBrowser.follow_link]; [link] is the attribute dict of the tag. *)
Definition follow_link `{Zlib} `{Bs4} `{UrlLib} (self : RoboBrowser)
  (link : gmap string string) (hs : PyHeaders) (net : Transfer)
  : RoboBrowser * result unit :=
  match link !! "href" with
  | None => (self, Raise MissingAttributeError)
  | Some href =>
      match _build_url self href with
      | Raise e => (self, Raise e)
      | Ok target => open self target hs net
      end
  end.

(** The [Form] collaborator: [serialize submit verb] is the list
    [form.serialize(submit=submit).to_requests(verb)['data']]. *)
Record Form := {
  method : string;
  action : string;
  serialize : option string -> string -> list (string * string)
}.

(** [d[k] = v] on a dict kept in insertion order. *)
Fixpoint dict_set (d : list (string * string)) (k v : string)
  : list (string * string) :=
  match d with
  | [] => [(k, v)]
  | (k', v') :: rest =>
      if string_eqb k k' then (k', v) :: rest else (k', v') :: dict_set rest k v
  end.

(** [{k: v for k, v in data}] *)
Definition dict_of_pairs (data : list (string * string)) : list (string * string) :=
  fold_left (fun d kv => dict_set d (fst kv) (snd kv)) data [].

(** [self.session.get] and [self.session.post] as [submit_form] calls them,
    with two positional arguments: the second is [headers] for [get], which
    so receives the dict of params, and [params] for [post]. *)
Definition session_get `{Zlib} (s : RoboCurl) (u : string)
  (params : list (string * string)) (net : Transfer) : RoboCurl * result bytes :=
  _do_request_dict (with_c s (setopt (c s) OptHttpGet)) u params net.

Definition session_post `{Zlib} `{UrlLib} (s : RoboCurl) (u : string)
  (params : list (string * string)) (net : Transfer) : RoboCurl * result bytes :=
  post s u params NoHeaders net.

(** [RoboBrowser.submit_form] *)
Definition submit_form `{Zlib} `{Bs4} `{UrlLib} (self : RoboBrowser)
  (form : Form) (submit : option string) (net : Transfer)
  : RoboBrowser * result unit :=
  (* Get HTTP verb *)
  let verb := upper (method form) in
  (* Send request *)
  match _build_url self (action form) with
  | Raise e => (self, Raise e)
  | Ok built =>
      match (if string_eqb built "" then browser_url self else Ok built) with
      | Raise e => (self, Raise e)
      | Ok u =>
          let params := dict_of_pairs (serialize form submit verb) in
          let meth := session_get in
          let meth := if string_eqb verb "POST" then session_post else meth in
          let s := with_hdr (with_payload (session self) []) "" in
          let '(s, r) := meth s u params net in
          let self := with_session self s in
          match r with
          | Raise e => (self, Raise e)
          | Ok _ => (_update_state self, Ok tt)   (* Update history *)
          end
      end
  end.

(** ** Sequences of navigation operations *)

Inductive Op :=
| OpOpen (u : string) (hs : PyHeaders) (net : Transfer)
| OpFollowLink (link : gmap string string) (hs : PyHeaders) (net : Transfer)
| OpSubmitForm (form : Form) (submit : option string) (net : Transfer)
| OpBack (n : Z)
| OpForward (n : Z).

Definition apply_op `{Zlib} `{Bs4} `{UrlLib} (self : RoboBrowser) (op : Op)
  : RoboBrowser * result unit :=
  match op with
  | OpOpen u hs net => open self u hs net
  | OpFollowLink link hs net => follow_link self link hs net
  | OpSubmitForm form submit net => submit_form self form submit net
  | OpBack n => back self n
  | OpForward n => forward self n
  end.

(** The browser after an operation, whether it returned or raised. *)
Definition step `{Zlib} `{Bs4} `{UrlLib} (self : RoboBrowser) (op : Op)
  : RoboBrowser :=
  fst (apply_op self op).

Definition run `{Zlib} `{Bs4} `{UrlLib} (self : RoboBrowser) (ops : list Op)
  : RoboBrowser :=
  fold_left step ops self.

(** The transfer an operation performs, when it performs one. *)
Definition op_transfer (op : Op) : option Transfer :=
  match op with
  | OpOpen _ _ net | OpFollowLink _ _ net | OpSubmitForm _ _ net => Some net
  | OpBack _ | OpForward _ => None
  end.

(** The arguments [submit_form] calls the transport with, for a browser
    whose current state is [st]: the URL and the params. *)
Definition submit_target `{Bs4} `{UrlLib} (st : RoboState) (form : Form) : string :=
  if string_eqb (urljoin (url st) (action form)) ""
  then url st else urljoin (url st) (action form).

Definition submit_params `{UrlLib} (form : Form) (submit : option string)
  : list (string * string) :=
  dict_of_pairs (serialize form submit (upper (method form))).

(** ** The history invariants *)

Definition history_invariants `{Bs4} (self : RoboBrowser) : Prop :=
  (-1 <= _cursor self < Z.of_nat (length (_states self)))%Z /\
  (_cursor self = (-1)%Z <-> _states self = []) /\
  (forall m, _maxlen self = Some m -> (Z.of_nat (length (_states self)) <= m)%Z).

(** A configured depth is a positive integer. *)
Definition depth_ok `{Bs4} (self : RoboBrowser) : Prop :=
  forall m, _maxlen self = Some m -> (0 < m)%Z.

(** A [history] argument that is [True], falsy, or a positive integer. *)
Definition history_arg_ok (h : History) : Prop :=
  match h with
  | HistInt n => (0 <= n)%Z
  | _ => True
  end.

(** The state [_update_state] appends. *)
Definition new_state `{Bs4} (self : RoboBrowser) : RoboState :=
  RoboState_init (RoboResponse_init (session self)).

(** The states of a push before any eviction: the states up to the cursor,
    then the new one. *)
Definition pushed `{Bs4} (self : RoboBrowser) : list RoboState :=
  take (Z.to_nat (_cursor self + 1)) (_states self) ++ [new_state self].

(** The number of states a push evicts from the front. *)
Definition evicted `{Bs4} (self : RoboBrowser) : nat :=
  match _maxlen self with
  | Some m => Z.to_nat (Z.of_nat (length (pushed self)) - m)
  | None => 0
  end.

(** The configured part of a browser: what no operation assigns. *)
Definition same_config `{Bs4} (a b : RoboBrowser) : Prop :=
  _maxlen b = _maxlen a /\ history b = history a /\ parser b = parser a.

(** A navigation either raises and leaves the history stack alone, or
    pushes onto the browser with its session replaced. *)
Definition navigated `{Bs4} (self self' : RoboBrowser) (r : result unit) : Prop :=
  (exists e s, r = Raise e /\ (self' = self \/ self' = with_session self s)) \/
  (exists s, r = Ok tt /\ self' = _update_state (with_session self s)).

(** [open], [follow_link] and [submit_form], as opposed to the cursor moves. *)
Definition is_navigation (op : Op) : bool :=
  match op with
  | OpBack _ | OpForward _ => false
  | _ => true
  end.

(** What a line gives the dict: the lowercased name and the stripped value
    around its first colon, when it holds a colon. *)
Definition header_of (line : string) : option (string * string) :=
  match split_colon line with
  | Some (name, value) => Some (lower name, strip value)
  | None => None
  end.

(** The dict after the loop of [parse_headers] has read [lines], starting
    from [d]. *)
Definition header_dict_from (d : gmap string string) (lines : list string)
  : gmap string string :=
  fold_left
    (fun d line =>
       match split_colon line with
       | None => d
       | Some (name, value) => <[lower name := strip value]> d
       end)
    lines d.

(** ** The specification's reading of two operations *)

(** The header map as the specification words it: the first line is the
    status line, and the lines after it are split on their first colon. *)
Definition spec_header_map (block : string) : gmap string string :=
  fold_left
    (fun d line =>
       match split_colon line with
       | None => d
       | Some (name, value) => <[lower name := strip value]> d
       end)
    (tail (split_crlf block)) ∅.

(** The URL [open] requests as the specification words it: the argument
    resolved against the URL of the current page. *)
Definition spec_open_target `{Bs4} `{UrlLib} (self : RoboBrowser) (u : string)
  : result string :=
  _build_url self u.

(** ** The rest of the browser surface *)

(** [l[i] = x], the position read as [getitem] reads it. *)
Definition setitem {A} (l : list A) (i : Z) (x : A) : list A :=
  if (i <? 0)%Z
  then if (Z.of_nat (length l) + i <? 0)%Z then l
       else <[Z.to_nat (Z.of_nat (length l) + i) := x]> l
  else <[Z.to_nat i := x]> l.

(** The [parsed] property of the browser, [self.state.parsed].  The state is
    an object held in [_states]: the cache it fills is seen there. *)
Definition browser_parsed `{Bs4} (self : RoboBrowser) (calls : list ParseCall)
  : RoboBrowser * result Soup * list ParseCall :=
  match state self with
  | Raise e => (self, Raise e, calls)
  | Ok st =>
      let '(doc, st', calls') := parsed (parser self) st calls in
      (with_history_stack self (setitem (_states self) (_cursor self) st')
         (_cursor self),
       Ok doc, calls')
  end.

(** [k in d] and [d[k]] on a dict kept in insertion order. *)
Fixpoint dict_get (d : list (string * string)) (k : string) : option string :=
  match d with
  | [] => None
  | (k', v) :: rest => if string_eqb k k' then Some v else dict_get rest k
  end.

(** The chunks of a stream fed to a decoder one call after the other: the
    decoder at the end and what each call returned or raised. *)
Fixpoint decompress_chunks `{Zlib} (self : DeflateDecoder) (chunks : list bytes)
  : DeflateDecoder * list (result bytes) :=
  match chunks with
  | [] => (self, [])
  | data :: rest =>
      let '(self, r) := decompress self data in
      let '(self, rs) := decompress_chunks self rest in
      (self, r :: rs)
  end.

(** The same chunks handed straight to [self._obj.decompress]. *)
Fixpoint obj_decompress_chunks `{Zlib} (self : DeflateDecoder) (chunks : list bytes)
  : DeflateDecoder * list (result bytes) :=
  match chunks with
  | [] => (self, [])
  | data :: rest =>
      let '(self, r) := obj_decompress self data in
      let '(self, rs) := obj_decompress_chunks self rest in
      (self, r :: rs)
  end.

(** A string whose first character, if any, is not whitespace. *)
Definition starts_clean (s : string) : Prop :=
  match s with
  | EmptyString => True
  | String ch _ => isspace ch = false
  end.

(** ** Concrete collaborators for the examples *)

(** A toy codec: a zlib stream is the byte [0x78] followed by the plain
    bytes, a gzip stream the byte [0x1f] followed by the plain bytes, and a
    raw stream the plain bytes alone.  An object is its window-bits value. *)
Definition toy_decompress (wbits : Z) (data : bytes) : option (bytes * Z) :=
  if (wbits <? 0)%Z then Some (data, wbits)
  else match data with
       | b :: rest =>
           if Byte.eqb b (if (wbits >? 15)%Z then Byte.x1f else Byte.x78)
           then Some (rest, wbits) else None
       | [] => Some ([], wbits)
       end.

Definition toy_zlib : Zlib :=
  {| zobj := Z; zlib_decompressobj := fun w => w; zobj_decompress := toy_decompress |}.

(** A document handle that records what it was parsed from. *)
Definition toy_bs4 : Bs4 :=
  {| Soup := bytes * option string; BeautifulSoup := fun b p => (b, p) |}.

(** The text of [s] up to and including its last slash. *)
Fixpoint dirname (s : string) : string :=
  match s with
  | EmptyString => EmptyString
  | String ch t =>
      match dirname t with
      | EmptyString => if Ascii.eqb ch (ascii_of_nat 47) then String ch EmptyString
                       else EmptyString
      | d => String ch d
      end
  end.

(** A join for the examples: a reference with a scheme stands alone, any
    other is appended to the directory of the base. *)
Definition toy_urljoin (base u : string) : string :=
  if has_colon u then u else String.append (dirname base) u.

Definition toy_urlencode (params : list (string * string)) : string :=
  String.concat "&" (map (fun kv => String.append (fst kv) (String.append "=" (snd kv))) params).

Definition toy_urllib : UrlLib :=
  {| urljoin := toy_urljoin; urlencode := toy_urlencode;
     upper := upper_ascii; upper_on_ascii := fun s _ => eq_refl |}.

Definition crlf : string := String CR (String LF EmptyString).

(** A completed transfer with a plain body. *)
Definition page (u : string) (body : bytes) : Transfer :=
  {| t_hdr := String.append "HTTP/1.1 200 OK"
                (String.append crlf (String.append "Content-Type: text/html"
                  (String.append crlf crlf)));
     t_url := u; t_body := Some body |}.

Definition toy_browser (h : History) : @RoboBrowser toy_bs4 :=
  @RoboBrowser_init toy_bs4 None (Some "html.parser") None h None true.

(** A browser of depth two that has opened two pages. *)
(** Opening [http://h/<name>] with a plain body. *)
Definition visit (name : string) (body : bytes) : Op :=
  OpOpen (String.append "http://h/" name) NoHeaders
    (page (String.append "http://h/" name) body).

Definition toy_run (h : History) (ops : list Op) : @RoboBrowser toy_bs4 :=
  @run toy_zlib toy_bs4 toy_urllib (toy_browser h) ops.

(** A browser of depth two that has opened two pages. *)
Definition two_pages : @RoboBrowser toy_bs4 :=
  toy_run (HistInt 2) [visit "a" [Byte.x41]; visit "b" [Byte.x42]].
(** A header block whose first line holds a colon. *)
Definition colon_status_block : string :=
  String.append "HTTP/1.1 200 OK: cached" (String.append crlf "Server: x").
(** A browser with unbounded history on the page [http://h/dir/index]. *)
Definition one_page : @RoboBrowser toy_bs4 :=
  toy_run HistTrue [visit "dir/index" [Byte.x41]].

(** A form that posts and a form with another verb. *)
Definition post_form : Form :=
  {| method := "post"; action := "login";
     serialize := fun _ _ => [("user", "bob"); ("pw", "x"); ("user", "eve")] |}.

Definition put_form : Form :=
  {| method := "put"; action := "save";
     serialize := fun _ _ => [("q", "1")] |}.




(** A completed transfer that declares [deflate] and carries a raw stream
    of the toy codec. *)
Definition deflate_page : Transfer :=
  {| t_hdr := String.append "HTTP/1.1 200 OK"
                (String.append crlf (String.append "Content-Encoding: deflate"
                  (String.append crlf crlf)));
     t_url := "http://h/z"; t_body := Some [Byte.x41; Byte.x42] |}.

(** A header block with mixed-case names, padded values and a repeated name. *)
Definition mixed_block : string :=
  String.append "HTTP/1.1 200 OK"
    (String.append crlf (String.append "Content-TYPE:   text/html  "
      (String.append crlf (String.append "X-Id: 1"
        (String.append crlf (String.append "x-id:2" crlf)))))).

(** A completed transfer that declares [gzip] and carries a gzip stream of
    the toy codec, and one whose body is not such a stream. *)
Definition gzip_page : Transfer :=
  {| t_hdr := String.append "HTTP/1.1 200 OK"
                (String.append crlf (String.append "content-encoding: gzip"
                  (String.append crlf crlf)));
     t_url := "http://h/g"; t_body := Some [Byte.x1f; Byte.x41; Byte.x42] |}.

Definition bad_gzip_page : Transfer :=
  {| t_hdr := t_hdr gzip_page; t_url := "http://h/g";
     t_body := Some [Byte.x41; Byte.x42] |}.

(** A transfer that fails after the status line came in. *)
Definition broken_transfer : Transfer :=
  {| t_hdr := String.append "HTTP/1.1 200 OK" crlf; t_url := "http://h/x";
     t_body := None |}.

(** Custom request headers, one of them without a colon. *)
Definition custom_headers : PyHeaders :=
  HeaderList ["X-Token: abc"; "junk"; "Accept: text/html"].

(** * Properties *)

Local Open Scope Z_scope.

(** ** Slices *)

Lemma slice_to_take {A} (l : list A) (k : Z) :
  0 <= k -> slice_to l k = take (Z.to_nat k) l.
Proof.
  intros Hk. unfold slice_to, slice_bound.
  destruct (Z.ltb_spec k 0); [lia | reflexivity].
Qed.

Lemma slice_from_drop {A} (l : list A) (k : Z) :
  0 <= k -> slice_from l k = drop (Z.to_nat k) l.
Proof.
  intros Hk. unfold slice_from, slice_bound.
  destruct (Z.ltb_spec k 0); [lia | reflexivity].
Qed.

Lemma getitem_lookup {A} (l : list A) (i : Z) :
  0 <= i -> getitem l i = l !! Z.to_nat i.
Proof.
  intros Hi. unfold getitem.
  destruct (Z.ltb_spec i 0); [lia | reflexivity].
Qed.

(** ** The history stack *)

Section History.
Context `{Bs4}.

Lemma maxlen_truthy_depth (self : RoboBrowser) :
  depth_ok self -> maxlen_truthy (_maxlen self) = _maxlen self.
Proof.
  unfold depth_ok, maxlen_truthy. intros Hd.
  destruct (_maxlen self) as [m|]; [|reflexivity].
  specialize (Hd m eq_refl).
  destruct (Z.eqb_spec m 0); [lia | reflexivity].
Qed.

Lemma length_pushed (self : RoboBrowser) :
  -1 <= _cursor self < Z.of_nat (length (_states self)) ->
  Z.of_nat (length (pushed self)) = _cursor self + 2.
Proof.
  intros Hc. unfold pushed.
  rewrite length_app, length_take_le by lia. simpl. lia.
Qed.

(** A push keeps the states up to the cursor, appends the new state and
    drops [evicted] states from the front; the cursor moves with them. *)
Lemma update_state_stack (self : RoboBrowser) :
  -1 <= _cursor self -> depth_ok self ->
  _states (_update_state self) = drop (evicted self) (pushed self) /\
  _cursor (_update_state self) = _cursor self + 1 - Z.of_nat (evicted self).
Proof.
  intros Hc Hd. unfold _update_state.
  rewrite maxlen_truthy_depth by assumption.
  rewrite slice_to_take by lia.
  fold (new_state self). fold (pushed self).
  unfold evicted.
  destruct (_maxlen self) as [m|] eqn:Hm; simpl.
  - destruct (Z.gtb_spec (Z.of_nat (length (pushed self)) - m) 0) as [Hgt|Hle]; simpl.
    + rewrite slice_from_drop by lia. split; [reflexivity | lia].
    + replace (Z.to_nat (Z.of_nat (length (pushed self)) - m)) with O by lia.
      split; [reflexivity | lia].
  - split; [reflexivity | lia].
Qed.

Lemma evicted_bound (self : RoboBrowser) :
  -1 <= _cursor self < Z.of_nat (length (_states self)) ->
  depth_ok self ->
  (evicted self < length (pushed self))%nat.
Proof.
  intros Hc Hd. pose proof (length_pushed self Hc) as Hl.
  unfold evicted. destruct (_maxlen self) as [m|] eqn:Hm.
  - specialize (Hd m Hm). lia.
  - lia.
Qed.

(** After a push the cursor is on the last state. *)
Lemma update_state_cursor_last (self : RoboBrowser) :
  -1 <= _cursor self < Z.of_nat (length (_states self)) ->
  depth_ok self ->
  _cursor (_update_state self)
  = Z.of_nat (length (_states (_update_state self))) - 1.
Proof.
  intros Hc Hd.
  destruct (update_state_stack self) as [Hs Hk]; [lia | assumption |].
  pose proof (length_pushed self Hc). pose proof (evicted_bound self Hc Hd).
  rewrite Hs, Hk, length_drop. lia.
Qed.

(** After a push the current state is the state just pushed. *)
Lemma update_state_current (self : RoboBrowser) :
  -1 <= _cursor self < Z.of_nat (length (_states self)) ->
  depth_ok self ->
  state (_update_state self) = Ok (new_state self).
Proof.
  intros Hc Hd.
  pose proof (update_state_cursor_last self Hc Hd) as Hlast.
  destruct (update_state_stack self) as [Hs Hk]; [lia | assumption |].
  pose proof (length_pushed self Hc) as Hl.
  pose proof (evicted_bound self Hc Hd) as Hev.
  unfold state.
  destruct (Z.eqb_spec (_cursor (_update_state self)) (-1)) as [Heq|Hne].
  { rewrite Hk in Heq. lia. }
  rewrite getitem_lookup by (rewrite Hk; lia).
  rewrite Hs, lookup_drop, Hk. unfold pushed.
  rewrite lookup_app_r by (rewrite length_take_le; lia).
  rewrite length_take_le by lia.
  replace (evicted self + Z.to_nat (_cursor self + 1 - Z.of_nat (evicted self))
           - Z.to_nat (_cursor self + 1))%nat with O.
  - reflexivity.
  - unfold pushed in Hl. rewrite length_app, length_take_le in Hl by lia.
    simpl in Hl. lia.
Qed.

Lemma update_state_invariants (self : RoboBrowser) :
  history_invariants self -> depth_ok self ->
  history_invariants (_update_state self).
Proof.
  intros (Hc & Hempty & Hmax) Hd.
  pose proof (update_state_cursor_last self Hc Hd) as Hlast.
  destruct (update_state_stack self) as [Hs Hk]; [lia | assumption |].
  pose proof (length_pushed self Hc) as Hl.
  pose proof (evicted_bound self Hc Hd) as Hev.
  assert (Hlen : (0 < length (_states (_update_state self)))%nat).
  { rewrite Hs, length_drop. lia. }
  repeat split.
  - lia.
  - lia.
  - intros Heq. lia.
  - intros Hnil. rewrite Hnil in Hlen. simpl in Hlen. lia.
  - intros m Hm.
    assert (Hm' : _maxlen self = Some m).
    { unfold _update_state in Hm.
      destruct (maxlen_truthy (_maxlen self));
        [destruct (_ >? 0)|]; exact Hm. }
    specialize (Hd m Hm').
    rewrite Hs, length_drop. unfold evicted. rewrite Hm'. lia.
Qed.

Lemma update_state_config (self : RoboBrowser) :
  _maxlen (_update_state self) = _maxlen self /\
  history (_update_state self) = history self /\
  session (_update_state self) = session self.
Proof.
  unfold _update_state.
  destruct (maxlen_truthy (_maxlen self)); [destruct (_ >? 0)|];
    repeat split.
Qed.
End History.

(** ** Operations keep the configuration and the invariants *)

Section Operations.
Context `{Zlib} `{Bs4} `{UrlLib}.

Lemma same_config_refl (a : RoboBrowser) : same_config a a.
Proof. repeat split. Qed.

Lemma same_config_trans (a b d : RoboBrowser) :
  same_config a b -> same_config b d -> same_config a d.
Proof. unfold same_config. intros (?&?&?) (?&?&?). repeat split; congruence. Qed.

Lemma update_state_same_config (self : RoboBrowser) (s : RoboCurl) :
  same_config self (_update_state (with_session self s)).
Proof.
  unfold same_config, _update_state.
  destruct (maxlen_truthy _); [destruct (_ >? 0)|]; repeat split.
Qed.

Lemma traverse_cases (self : RoboBrowser) (n : Z) :
  _traverse self n = (self, Raise HistoryDisabledError) \/
  _traverse self n = (self, Raise IndexOutOfRangeError) \/
  (0 <= _cursor self + n < Z.of_nat (length (_states self)) /\
   _traverse self n
   = (with_history_stack self (_states self) (_cursor self + n), Ok tt)).
Proof.
  unfold _traverse.
  destruct (history_falsy (history self)); [left; reflexivity | right].
  destruct (Z.geb_spec (_cursor self + n) (Z.of_nat (length (_states self))));
    destruct (Z.ltb_spec (_cursor self + n) 0); simpl;
    try (left; reflexivity).
  right. split; [lia | reflexivity].
Qed.

Lemma traverse_preserves (self : RoboBrowser) (n : Z) :
  history_invariants self ->
  history_invariants (fst (_traverse self n)) /\
  same_config self (fst (_traverse self n)).
Proof.
  intros Hinv.
  destruct (traverse_cases self n) as [-> | [-> | [Hr ->]]]; simpl;
    try (split; [assumption | apply same_config_refl]).
  split; [| repeat split].
  destruct Hinv as (Hc & Hempty & Hmax).
  unfold history_invariants; simpl.
  split; [lia |]. split; [| exact Hmax].
  split; [intros Heq; lia |].
  intros Hnil. rewrite Hnil in Hr. simpl in Hr. lia.
Qed.

Lemma open_navigated (self : RoboBrowser) u hs net :
  navigated self (fst (open self u hs net)) (snd (open self u hs net)).
Proof.
  unfold open. destruct (get (session self) u hs net) as [s [body|e]]; simpl.
  - right. exists s. split; reflexivity.
  - left. exists e, s. split; [reflexivity | right; reflexivity].
Qed.

Lemma follow_link_navigated (self : RoboBrowser) link hs net :
  navigated self (fst (follow_link self link hs net))
    (snd (follow_link self link hs net)).
Proof.
  unfold follow_link. destruct (link !! "href"%string) as [href|].
  - destruct (_build_url self href) as [target|e].
    + apply open_navigated.
    + left. exists e, (session self). split; [reflexivity | left; reflexivity].
  - left. exists MissingAttributeError, (session self).
    split; [reflexivity | left; reflexivity].
Qed.

Lemma submit_form_navigated (self : RoboBrowser) form submit net :
  navigated self (fst (submit_form self form submit net))
    (snd (submit_form self form submit net)).
Proof.
  unfold submit_form.
  destruct (_build_url self (action form)) as [built|e];
    [| left; exists e, (session self); split; [reflexivity | left; reflexivity]].
  destruct (if string_eqb built "" then browser_url self else Ok built) as [u|e];
    [| left; exists e, (session self); split; [reflexivity | left; reflexivity]].
  destruct ((if string_eqb (upper (method form)) "POST" then session_post
             else session_get) _ u _ net) as [s [body|e]]; simpl.
  - right. exists s. split; reflexivity.
  - left. exists e, s. split; [reflexivity | right; reflexivity].
Qed.

Lemma navigated_preserves (self self' : RoboBrowser) r :
  navigated self self' r ->
  history_invariants self -> depth_ok self ->
  history_invariants self' /\ same_config self self'.
Proof.
  intros [(e & s & _ & [-> | ->]) | (s & _ & ->)] Hinv Hd.
  - split; [assumption | apply same_config_refl].
  - split; [exact Hinv | repeat split].
  - split; [| apply update_state_same_config].
    apply update_state_invariants; assumption.
Qed.

Lemma step_preserves (self : RoboBrowser) (op : Op) :
  history_invariants self -> depth_ok self ->
  history_invariants (step self op) /\ same_config self (step self op).
Proof.
  intros Hinv Hd. unfold step.
  destruct op as [u hs net | link hs net | form submit net | n | n]; simpl.
  - eapply navigated_preserves; eauto using open_navigated.
  - eapply navigated_preserves; eauto using follow_link_navigated.
  - eapply navigated_preserves; eauto using submit_form_navigated.
  - apply traverse_preserves; assumption.
  - apply traverse_preserves; assumption.
Qed.

Lemma depth_ok_same_config (a b : RoboBrowser) :
  same_config a b -> depth_ok a -> depth_ok b.
Proof. unfold depth_ok. intros (Hm & _) Hd m Hb. apply Hd. congruence. Qed.

Lemma run_preserves (ops : list Op) (self : RoboBrowser) :
  history_invariants self -> depth_ok self ->
  history_invariants (run self ops) /\ same_config self (run self ops).
Proof.
  revert self. induction ops as [|op ops IH]; intros self Hinv Hd; simpl.
  - split; [assumption | apply same_config_refl].
  - destruct (step_preserves self op Hinv Hd) as [Hinv' Hcfg].
    destruct (IH (step self op) Hinv' (depth_ok_same_config _ _ Hcfg Hd))
      as [Hinv'' Hcfg'].
    split; [assumption | eapply same_config_trans; eassumption].
Qed.

Lemma init_depth_ok session parser user_agent history timeout redirects :
  history_arg_ok history ->
  depth_ok (RoboBrowser_init session parser user_agent history timeout redirects).
Proof.
  unfold depth_ok; simpl. intros Hok m Hm.
  destruct history as [| | |n]; simpl in *; try discriminate; try (injection Hm; lia).
  destruct (Z.eqb_spec n 0); injection Hm; lia.
Qed.

Lemma init_invariants session parser user_agent history timeout redirects :
  history_arg_ok history ->
  history_invariants
    (RoboBrowser_init session parser user_agent history timeout redirects).
Proof.
  intros Hok.
  pose proof (init_depth_ok session parser user_agent history timeout redirects Hok)
    as Hd.
  unfold history_invariants. split; [simpl; lia |]. split; [split; reflexivity |].
  intros m Hm. specialize (Hd m Hm). simpl. lia.
Qed.
End Operations.

(** ** Pushing onto the history *)

Section Navigation.
Context `{Zlib} `{Bs4} `{UrlLib}.

Lemma navigated_ok (self self' : RoboBrowser) :
  navigated self self' (Ok tt) ->
  exists s, self' = _update_state (with_session self s).
Proof.
  intros [(e & s & Hr & _) | (s & _ & ->)]; [discriminate | eauto].
Qed.

Lemma apply_op_navigated (self : RoboBrowser) (op : Op) :
  is_navigation op = true ->
  navigated self (fst (apply_op self op)) (snd (apply_op self op)).
Proof.
  destruct op; simpl; try discriminate; intros _;
    auto using open_navigated, follow_link_navigated, submit_form_navigated.
Qed.

Lemma open_ok (self self' : RoboBrowser) u hs net :
  open self u hs net = (self', Ok tt) ->
  exists s, self' = _update_state (with_session self s).
Proof.
  intros Hop. pose proof (open_navigated self u hs net) as Hn.
  rewrite Hop in Hn. apply navigated_ok. exact Hn.
Qed.

Lemma new_state_update_state (self : RoboBrowser) :
  new_state (_update_state self) = new_state self.
Proof.
  unfold new_state. destruct (update_state_config self) as (_ & _ & ->).
  reflexivity.
Qed.

Lemma evicted_with_session (self : RoboBrowser) (s : RoboCurl) :
  evicted (with_session self s) = evicted self.
Proof.
  unfold evicted, pushed; simpl. rewrite !length_app. reflexivity.
Qed.

(** With unbounded history a push only truncates and appends. *)
Lemma update_state_unbounded (self : RoboBrowser) :
  _maxlen self = None ->
  _update_state self
  = with_history_stack self
      (slice_to (_states self) (_cursor self + 1) ++ [new_state self])
      (_cursor self + 1).
Proof. intros Hm. unfold _update_state. rewrite Hm. reflexivity. Qed.
End Navigation.

(** C1 (as amended).  A navigation that returns keeps the states up to the
    cursor, appends the new page state, drops from the front the states in
    excess of the configured depth, and leaves the cursor on the last state,
    which is the current one.  With unbounded history, opening A, B, C, going
    back to B and opening D leaves [A; B; D] with the cursor on D, and
    [forward] then raises "Index out of range". *)
Theorem C1_push_truncates_appends_evicts `{Zlib} `{Bs4} `{UrlLib} :
  (forall (self self' : RoboBrowser) (op : Op),
      history_invariants self -> depth_ok self ->
      is_navigation op = true ->
      apply_op self op = (self', Ok tt) ->
      _states self'
      = drop (evicted self)
          (take (Z.to_nat (_cursor self + 1)) (_states self) ++ [new_state self']) /\
      (evicted self = 0%nat ->
       _states self'
       = take (Z.to_nat (_cursor self + 1)) (_states self) ++ [new_state self']) /\
      _cursor self' = Z.of_nat (length (_states self')) - 1 /\
      state self' = Ok (new_state self')) /\
  (forall session parser user_agent timeout redirects
          uA hA nA uB hB nB uC hC nC uD hD nD (b1 b2 b3 b5 : RoboBrowser),
      let b0 := RoboBrowser_init session parser user_agent HistTrue timeout redirects in
      open b0 uA hA nA = (b1, Ok tt) ->
      open b1 uB hB nB = (b2, Ok tt) ->
      open b2 uC hC nC = (b3, Ok tt) ->
      open (fst (back b3 1)) uD hD nD = (b5, Ok tt) ->
      exists A B C D,
        state b1 = Ok A /\ state b2 = Ok B /\ state b3 = Ok C /\
        _states b3 = [A; B; C] /\
        snd (back b3 1) = Ok tt /\ state (fst (back b3 1)) = Ok B /\
        _states b5 = [A; B; D] /\ _cursor b5 = 2 /\ state b5 = Ok D /\
        forward b5 1 = (b5, Raise IndexOutOfRangeError)).
Proof.
  split.
  - intros self self' op Hinv Hd Hnav Hop.
    pose proof (apply_op_navigated self op Hnav) as Hn.
    rewrite Hop in Hn. simpl in Hn.
    apply navigated_ok in Hn as [s ->].
    set (b := with_session self s).
    assert (Hinv' : history_invariants b) by exact Hinv.
    assert (Hd' : depth_ok b) by exact Hd.
    destruct Hinv' as (Hc & _).
    destruct (update_state_stack b) as [Hs Hk]; [lia | assumption |].
    rewrite new_state_update_state.
    assert (Hst : _states (_update_state b)
                  = drop (evicted self)
                      (take (Z.to_nat (_cursor self + 1)) (_states self) ++ [new_state b])).
    { rewrite Hs. unfold b. rewrite evicted_with_session. reflexivity. }
    split; [exact Hst |]. split.
    + intros Hnone. rewrite Hst, Hnone. reflexivity.
    + split; [apply update_state_cursor_last | apply update_state_current];
        assumption.
  - intros session parser user_agent timeout redirects
      uA hA nA uB hB nB uC hC nC uD hD nD b1 b2 b3 b5 b0 HA HB HC HD.
    apply open_ok in HA as [sA ->].
    apply open_ok in HB as [sB ->].
    apply open_ok in HC as [sC ->].
    apply open_ok in HD as [sD ->].
    exists (RoboState_init (RoboResponse_init sA)),
      (RoboState_init (RoboResponse_init sB)),
      (RoboState_init (RoboResponse_init sC)),
      (RoboState_init (RoboResponse_init sD)).
    repeat split.
Qed.

Lemma two_pages_invariants : history_invariants two_pages /\ depth_ok two_pages.
Proof.
  split.
  - unfold history_invariants.
    replace (_cursor two_pages) with 1 by (vm_compute; reflexivity).
    replace (length (_states two_pages)) with 2%nat by (vm_compute; reflexivity).
    replace (_maxlen two_pages) with (Some 2) by (vm_compute; reflexivity).
    split; [lia |]. split.
    + split; [lia |].
      intros Hnil. apply (f_equal length) in Hnil. vm_compute in Hnil. lia.
    + intros m Hm. injection Hm as <-. lia.
  - intros m Hm. vm_compute in Hm. injection Hm as <-. lia.
Defined.

Lemma C1_push_truncates_appends_evicts_witness :
  let self' := fst (@apply_op toy_zlib toy_bs4 toy_urllib two_pages
                      (visit "c" [Byte.x43])) in
  evicted two_pages = 1%nat /\
  _states self'
  = drop 1 (take 2 (_states two_pages) ++ [new_state self']) /\
  _cursor self' = 1 /\
  state self' = Ok (new_state self').
Proof.
  pose proof (proj1 (@C1_push_truncates_appends_evicts toy_zlib toy_bs4 toy_urllib)
                two_pages
                (fst (@apply_op toy_zlib toy_bs4 toy_urllib two_pages
                        (visit "c" [Byte.x43])))
                (visit "c" [Byte.x43])
                (proj1 two_pages_invariants) (proj2 two_pages_invariants)
                eq_refl eq_refl) as (Hs & _ & Hc & Hcur).
  split; [reflexivity |].
  split; [exact Hs |].
  split; [rewrite Hc; reflexivity | exact Hcur].
Defined.

(** C1 as stated fails when the push evicts: at depth two, with [A; B] and
    the cursor on B, opening C returns, and the states are not [A; B; C]. *)
Lemma C1_push_plain_append_counterexample :
  let r := @open toy_zlib toy_bs4 two_pages "http://h/c" NoHeaders
             (page "http://h/c" [Byte.x43]) in
  snd r = Ok tt /\
  _states (fst r)
  <> take (Z.to_nat (_cursor two_pages + 1)) (_states two_pages)
       ++ [new_state (fst r)].
Proof.
  split; [reflexivity |].
  intros Heq. apply (f_equal length) in Heq. vm_compute in Heq. discriminate.
Qed.

(** ** The invariants along a run *)

(** C2.  For a browser built with a [history] argument that is [True],
    falsy or a positive integer, after every operation of any sequence of
    [open], [follow_link], [submit_form], [back] and [forward]: the cursor is
    between -1 and the last index, it is -1 exactly when there are no states,
    and the number of states is within the configured depth.  A push from
    such a browser drops [evicted] states, the oldest ones, from the front
    and lowers the cursor by that number. *)
Theorem C2_history_invariants `{Zlib} `{Bs4} `{UrlLib}
  session parser user_agent history timeout redirects (ops : list Op) :
  history_arg_ok history ->
  let b0 := RoboBrowser_init session parser user_agent history timeout redirects in
  (forall k, history_invariants (run b0 (take k ops))) /\
  (forall s,
      let b := with_session (run b0 ops) s in
      _states (_update_state b) = drop (evicted b) (pushed b) /\
      _cursor (_update_state b) = _cursor b + 1 - Z.of_nat (evicted b) /\
      (forall m, _maxlen b = Some m ->
                 evicted b = Z.to_nat (Z.of_nat (length (pushed b)) - m)) /\
      (_maxlen b = None -> evicted b = 0%nat)).
Proof.
  intros Hok b0.
  pose proof (init_invariants session parser user_agent history timeout redirects Hok)
    as Hinv0.
  pose proof (init_depth_ok session parser user_agent history timeout redirects Hok)
    as Hd0.
  split.
  - intros k. apply run_preserves; assumption.
  - intros s b.
    destruct (run_preserves ops b0 Hinv0 Hd0) as [Hinv Hcfg].
    assert (Hd : depth_ok b).
    { apply (depth_ok_same_config b0); [exact Hcfg | exact Hd0]. }
    destruct Hinv as (Hc & _).
    destruct (update_state_stack b) as [Hs Hk]; [exact (proj1 Hc) | exact Hd |].
    split; [exact Hs |]. split; [exact Hk |].
    unfold evicted. split.
    + intros m ->. reflexivity.
    + intros ->. reflexivity.
Qed.

Lemma C2_history_invariants_witness :
  history_arg_ok (HistInt 2) /\
  history_invariants
    (toy_run (HistInt 2)
       [visit "a" [Byte.x41]; visit "b" [Byte.x42]; OpBack 1; visit "c" [Byte.x43];
        visit "d" [Byte.x44]; OpForward 1]).
Proof.
  assert (Hok : history_arg_ok (HistInt 2)) by (simpl; lia).
  split; [exact Hok |].
  exact (proj1 (@C2_history_invariants toy_zlib toy_bs4 toy_urllib
                  None (Some "html.parser"%string) None (HistInt 2) None true
                  [visit "a" [Byte.x41]; visit "b" [Byte.x42]; OpBack 1;
                   visit "c" [Byte.x43]; visit "d" [Byte.x44]; OpForward 1]
                  Hok) 6%nat).
Defined.

(** ** Moving the cursor *)

(** C6.  With history tracking on, a move by [delta] raises "Index out of
    range" exactly when [cursor + delta] is outside [0, length), and then the
    browser is unchanged; otherwise it returns with the cursor at
    [cursor + delta] and the same states.  [back n] is the move by [-n],
    [forward n] the move by [n]; [back] at cursor 0 and [forward] at the last
    index raise "Index out of range". *)
Theorem C6_traverse_bounds `{Bs4} (self : RoboBrowser) (delta : Z) :
  history_falsy (history self) = false ->
  (snd (_traverse self delta) = Raise IndexOutOfRangeError <->
   ~ (0 <= _cursor self + delta < Z.of_nat (length (_states self)))) /\
  (~ (0 <= _cursor self + delta < Z.of_nat (length (_states self))) ->
   fst (_traverse self delta) = self) /\
  (0 <= _cursor self + delta < Z.of_nat (length (_states self)) ->
   snd (_traverse self delta) = Ok tt /\
   _cursor (fst (_traverse self delta)) = _cursor self + delta /\
   _states (fst (_traverse self delta)) = _states self) /\
  back self delta = _traverse self (- delta) /\
  forward self delta = _traverse self delta /\
  (_cursor self = 0 -> back self 1 = (self, Raise IndexOutOfRangeError)) /\
  (_cursor self = Z.of_nat (length (_states self)) - 1 ->
   forward self 1 = (self, Raise IndexOutOfRangeError)).
Proof.
  intros Hon.
  assert (Hmove : forall d,
    (~ (0 <= _cursor self + d < Z.of_nat (length (_states self))) ->
     _traverse self d = (self, Raise IndexOutOfRangeError)) /\
    (0 <= _cursor self + d < Z.of_nat (length (_states self)) ->
     _traverse self d
     = (with_history_stack self (_states self) (_cursor self + d), Ok tt))).
  { intros d. unfold _traverse. rewrite Hon.
    destruct (Z.geb_spec (_cursor self + d) (Z.of_nat (length (_states self))));
      destruct (Z.ltb_spec (_cursor self + d) 0); simpl;
      split; intros; try reflexivity; lia. }
  destruct (Hmove delta) as [Hout Hin].
  split; [| split; [| split; [| split; [| split; [| split]]]]].
  - split.
    + intros Hr Hrange. rewrite (Hin Hrange) in Hr. discriminate.
    + intros Hrange. rewrite (Hout Hrange). reflexivity.
  - intros Hrange. rewrite (Hout Hrange). reflexivity.
  - intros Hrange. rewrite (Hin Hrange). repeat split.
  - unfold back. replace (-1 * delta) with (- delta) by lia. reflexivity.
  - reflexivity.
  - intros H0. unfold back. apply (Hmove (-1 * 1)). lia.
  - intros Hlast. unfold forward. apply (Hmove 1). lia.
Qed.

Lemma C6_traverse_bounds_witness :
  history_falsy (history two_pages) = false /\
  back two_pages 1 = (with_history_stack two_pages (_states two_pages) 0, Ok tt) /\
  forward two_pages 1 = (two_pages, Raise IndexOutOfRangeError).
Proof.
  assert (Hon : history_falsy (history two_pages) = false) by reflexivity.
  destruct (@C6_traverse_bounds toy_bs4 two_pages 1 Hon)
    as (_ & _ & _ & _ & _ & _ & Hfwd).
  split; [exact Hon |]. split; [reflexivity |].
  apply Hfwd. reflexivity.
Defined.

(** ** History turned off *)

Lemma history_falsy_arg_ok (h : History) :
  history_falsy h = true -> history_arg_ok h.
Proof.
  destruct h as [| | |n]; simpl; try (intros; exact I).
  intros Hn. destruct (Z.eqb_spec n 0); [lia | discriminate].
Qed.

(** C5 (as amended).  For a browser built with a falsy [history] argument
    ([False], [None] or 0), whose depth is then 1, every [back n] and
    [forward n] raises "Not tracking history" and leaves the browser
    unchanged, after any sequence of operations. *)
Theorem C5_falsy_history_disables_moves `{Zlib} `{Bs4} `{UrlLib}
  session parser user_agent history timeout redirects (ops : list Op) (n : Z) :
  history_falsy history = true ->
  let b := run (RoboBrowser_init session parser user_agent history timeout redirects)
             ops in
  _maxlen b = Some 1 /\
  back b n = (b, Raise HistoryDisabledError) /\
  forward b n = (b, Raise HistoryDisabledError).
Proof.
  intros Hoff b.
  pose proof (history_falsy_arg_ok history Hoff) as Hok.
  destruct (run_preserves ops
              (RoboBrowser_init session parser user_agent history timeout redirects)
              (init_invariants _ _ _ _ _ _ Hok) (init_depth_ok _ _ _ _ _ _ Hok))
    as [_ (Hm & Hh & _)].
  fold b in Hm, Hh. simpl in Hm, Hh.
  split.
  - rewrite Hm. destruct history as [| | |k]; simpl in *;
      try discriminate; try reflexivity.
    rewrite Hoff. reflexivity.
  - unfold back, forward, _traverse. rewrite Hh, Hoff. split; reflexivity.
Qed.

Lemma C5_falsy_history_disables_moves_witness :
  history_falsy HistFalse = true /\
  let b := toy_run HistFalse [visit "a" [Byte.x41]; visit "b" [Byte.x42]] in
  back b 1 = (b, Raise HistoryDisabledError) /\
  forward b 0 = (b, Raise HistoryDisabledError).
Proof.
  split; [reflexivity |].
  split.
  - exact (proj1 (proj2 (@C5_falsy_history_disables_moves toy_zlib toy_bs4 toy_urllib
                           None (Some "html.parser"%string) None HistFalse None true
                           [visit "a" [Byte.x41]; visit "b" [Byte.x42]] 1 eq_refl))).
  - exact (proj2 (proj2 (@C5_falsy_history_disables_moves toy_zlib toy_bs4 toy_urllib
                           None (Some "html.parser"%string) None HistFalse None true
                           [visit "a" [Byte.x41]; visit "b" [Byte.x42]] 0 eq_refl))).
Defined.

(** C5 as stated fails for the integer depth 1: the depth is exactly 1, yet
    history tracking is on, [back 0] returns and [forward 1] raises "Index
    out of range". *)
Lemma C5_depth_one_counterexample :
  let b := toy_run (HistInt 1) [visit "a" [Byte.x41]] in
  _maxlen b = Some 1 /\
  snd (back b 0) = Ok tt /\
  snd (forward b 1) = Raise IndexOutOfRangeError /\
  snd (forward b 1) <> Raise HistoryDisabledError.
Proof.
  split; [reflexivity |]. split; [reflexivity |]. split; [reflexivity |].
  vm_compute. discriminate.
Qed.

(** ** Lazy parsing *)

Section Parsing.
Context `{Bs4}.

(** Once the handle is cached, an access returns it and calls nothing. *)
Lemma parsed_times_cached (n : nat) parser (self : RoboState) doc calls :
  _parsed self = Some doc ->
  parsed_times n parser self calls = (repeat doc n, self, calls).
Proof.
  intros Hc. induction n as [|n IH]; simpl; [reflexivity |].
  unfold parsed. rewrite Hc. rewrite IH. reflexivity.
Qed.
End Parsing.

(** C7.  On a page state as [RoboState] builds it, the first access to
    [parsed] calls the constructor once, on [response.content] and the
    parser, and caches the handle; each later access returns that handle
    with no further call.  After any number of accesses, one or more, every
    handle returned is that of the single call, and the response is the one
    the state was built with. *)
Theorem C7_parsed_once `{Bs4} (parser : option string) (r : RoboResponse)
  (calls : list ParseCall) (n : nat) :
  let doc := BeautifulSoup (content r) parser in
  parsed (parser) (RoboState_init r) calls
  = (doc, {| response := r; url := resp_url r; _parsed := Some doc |},
     calls ++ [(content r, parser)]) /\
  parsed_times (S n) parser (RoboState_init r) calls
  = (repeat doc (S n),
     {| response := r; url := resp_url r; _parsed := Some doc |},
     calls ++ [(content r, parser)]).
Proof.
  intros doc. split; [reflexivity |].
  cbn [parsed_times]. unfold parsed at 1. cbn [_parsed RoboState_init].
  rewrite (parsed_times_cached n parser _ doc) by reflexivity.
  reflexivity.
Qed.

(** ** Header parsing *)

Section Headers.

Lemma parse_headers_fold (lines : list string) first status d :
  fold_left parse_headers_step lines (first, status, d)
  = (match lines with [] => first | _ => false end,
     (if first then match lines with [] => status | l :: _ => Some l end
      else status),
     header_dict_from d lines).
Proof.
  revert first status d.
  induction lines as [|line rest IH]; intros first status d.
  - destruct first; reflexivity.
  - cbn [fold_left header_dict_from]. unfold parse_headers_step at 2.
    destruct (split_colon line) as [[name value]|]; rewrite IH;
      destruct rest; destruct first; reflexivity.
Qed.

Lemma split_crlf_from_nonempty cur s : split_crlf_from cur s <> [].
Proof.
  revert cur.
  assert (Hgen : forall n s, (String.length s <= n)%nat ->
                             forall cur, split_crlf_from cur s <> []).
  { intros n. induction n as [|n IH]; intros s' Hlen cur.
    - destruct s'; simpl in *; [discriminate | lia].
    - destruct s' as [|a t]; simpl; [discriminate |].
      destruct t as [|b r].
      + simpl. discriminate.
      + destruct (Ascii.eqb a CR && Ascii.eqb b LF); [discriminate |].
        apply IH. simpl in *. lia. }
  intros cur. apply (Hgen (String.length s)). lia.
Qed.

Lemma split_colon_None (line : string) :
  split_colon line = None <-> has_colon line = false.
Proof.
  induction line as [|ch t IH]; simpl; [tauto |].
  destruct (Ascii.eqb ch colon); simpl.
  - split; discriminate.
  - destruct (split_colon t) as [[name value]|].
    + split; [discriminate |]. intros Hf. apply IH in Hf. discriminate.
    + split; [intros _; apply IH; reflexivity | reflexivity].
Qed.

(** [split_colon] cuts at the first colon. *)
Lemma split_colon_Some (line name value : string) :
  split_colon line = Some (name, value) <->
  line = String.append name (String colon value) /\ has_colon name = false.
Proof.
  revert name. induction line as [|ch t IH]; intros name; simpl.
  - split; [discriminate |]. intros [Heq _]. destruct name; discriminate.
  - destruct (Ascii.eqb_spec ch colon) as [-> | Hne].
    + split.
      * intros [= <- <-]. split; reflexivity.
      * intros [Heq Hno]. destruct name as [|a name']; simpl in *.
        -- injection Heq as ->. reflexivity.
        -- injection Heq as <- _. rewrite Ascii.eqb_refl in Hno. discriminate.
    + destruct (split_colon t) as [[name' value']|] eqn:Ht.
      * split.
        -- intros [= <- <-]. destruct (proj1 (IH name') eq_refl) as [-> Hno].
           simpl. split; [reflexivity |].
           destruct (Ascii.eqb_spec ch colon); [contradiction | exact Hno].
        -- intros [Heq Hno]. destruct name as [|a name'']; simpl in *.
           ++ injection Heq as -> _. contradiction.
           ++ injection Heq as <- ->.
              destruct (Ascii.eqb ch colon); [discriminate |]. simpl in Hno.
              assert (Hs : Some (name', value') = Some (name'', value)).
              { apply IH. split; [reflexivity | exact Hno]. }
              injection Hs as -> ->. reflexivity.
      * split; [discriminate |].
        intros [Heq Hno]. destruct name as [|a name'']; simpl in *.
        -- injection Heq as -> _. contradiction.
        -- injection Heq as <- ->.
           destruct (Ascii.eqb ch colon); [discriminate |]. simpl in Hno.
           assert (Hs : None = Some (name'', value)).
           { apply IH. split; [reflexivity | exact Hno]. }
           discriminate.
Qed.

Lemma header_dict_from_snoc d lines line :
  header_dict_from d (lines ++ [line])
  = match header_of line with
    | Some (k, v) => <[k := v]> (header_dict_from d lines)
    | None => header_dict_from d lines
    end.
Proof.
  unfold header_dict_from, header_of. rewrite fold_left_app. simpl.
  destruct (split_colon line) as [[name value]|]; reflexivity.
Qed.

(** A name maps to the value of the last line that gives it, and is absent
    when no line gives it. *)
Lemma header_dict_lookup (lines : list string) (k v : string) :
  header_dict_from ∅ lines !! k = Some v <->
  exists before line after,
    lines = before ++ line :: after /\
    header_of line = Some (k, v) /\
    Forall (fun l => forall v', header_of l <> Some (k, v')) after.
Proof.
  revert v. induction lines as [|line lines IH] using rev_ind; intros v.
  - split.
    + unfold header_dict_from; simpl. rewrite lookup_empty. discriminate.
    + intros (before & l & after & Heq & _). destruct before; discriminate.
  - rewrite header_dict_from_snoc. split.
    + intros Hlook.
      destruct (header_of line) as [[k' v']|] eqn:Hline.
      * destruct (decide (k' = k)) as [-> | Hne].
        -- rewrite lookup_insert_eq in Hlook. injection Hlook as ->.
           exists lines, line, []. repeat split; [assumption | constructor].
        -- rewrite lookup_insert_ne in Hlook by assumption.
           apply IH in Hlook as (before & l & after & -> & Hl & Hafter).
           exists before, l, (after ++ [line]).
           split; [rewrite <- app_assoc; reflexivity |].
           split; [assumption |].
           apply Forall_app. split; [assumption |].
           constructor; [| constructor].
           intros v'' Hv. rewrite Hline in Hv. congruence.
      * apply IH in Hlook as (before & l & after & -> & Hl & Hafter).
        exists before, l, (after ++ [line]).
        split; [rewrite <- app_assoc; reflexivity |].
        split; [assumption |].
        apply Forall_app. split; [assumption |].
        constructor; [| constructor].
        intros v'' Hv. rewrite Hline in Hv. discriminate.
    + intros (before & l & after & Heq & Hl & Hafter).
      destruct after as [|a after _] using rev_ind.
      * apply app_inj_tail in Heq as [-> ->].
        rewrite Hl. apply lookup_insert_eq.
      * rewrite app_comm_cons, app_assoc in Heq.
        apply app_inj_tail in Heq as [-> <-].
        apply Forall_app in Hafter as [Hafter Hlast].
        apply Forall_inv in Hlast.
        assert (Hprev : header_dict_from ∅ (before ++ l :: after) !! k = Some v).
        { apply IH. exists before, l, after. repeat split; assumption. }
        destruct (header_of line) as [[k' v']|] eqn:Hline; [| exact Hprev].
        destruct (decide (k' = k)) as [-> | Hne].
        -- exfalso. apply (Hlast v'). reflexivity.
        -- rewrite lookup_insert_ne by assumption. exact Hprev.
Qed.
End Headers.

Section Lines.
Local Open Scope string_scope.

Lemma append_cons (ch : ascii) (a b : string) :
  String.append (String ch a) b = String ch (String.append a b).
Proof. reflexivity. Qed.

Lemma append_assoc (a b d : string) :
  String.append (String.append a b) d = String.append a (String.append b d).
Proof.
  induction a as [|ch a IH]; [reflexivity |].
  rewrite !append_cons, IH. reflexivity.
Qed.

Lemma append_empty_r (a : string) : String.append a "" = a.
Proof.
  induction a as [|ch a IH]; [reflexivity |].
  rewrite append_cons, IH. reflexivity.
Qed.

Lemma split_crlf_from_step (cur : string) (a b : ascii) (r : string) :
  split_crlf_from cur (String a (String b r))
  = if Ascii.eqb a CR && Ascii.eqb b LF
    then cur :: split_crlf_from "" r
    else split_crlf_from (String.append cur (String a "")) (String b r).
Proof. reflexivity. Qed.

(** Joining the lines with CR LF gives the block back. *)
Lemma concat_split_crlf_from (n : nat) :
  forall s cur, (String.length s <= n)%nat ->
    String.concat crlf (split_crlf_from cur s) = String.append cur s.
Proof.
  induction n as [|n IH]; intros s cur Hlen.
  - destruct s; simpl in *; [rewrite append_empty_r; reflexivity | lia].
  - destruct s as [|a t]; [simpl; rewrite append_empty_r; reflexivity |].
    destruct t as [|b r].
    + reflexivity.
    + rewrite split_crlf_from_step.
      destruct (Ascii.eqb a CR && Ascii.eqb b LF) eqn:Hsep.
      * apply andb_prop in Hsep as [Ha Hb].
        apply Ascii.eqb_eq in Ha as ->. apply Ascii.eqb_eq in Hb as ->.
        pose proof (split_crlf_from_nonempty "" r) as Hne.
        pose proof (IH r "" ltac:(simpl in *; lia)) as Hr.
        destruct (split_crlf_from "" r) as [|l ls]; [contradiction |].
        cbn [String.concat]. cbn [String.concat] in Hr. rewrite Hr.
        reflexivity.
      * rewrite IH by (simpl in *; lia). rewrite append_assoc. reflexivity.
Qed.

Lemma concat_split_crlf (s : string) : String.concat crlf (split_crlf s) = s.
Proof. apply (concat_split_crlf_from (String.length s)). lia. Qed.
End Lines.

(** C8 (as amended).  [parse_headers] never fails.  It splits the block at
    each CR LF (joining the lines gives the block back), assigns the first
    line to [status_line] and touches nothing else of the session.  Every
    line that holds a colon, the first line included, gives the dict the text
    before its first colon, lowercased, mapped to the text after it, stripped
    of surrounding whitespace.  A name maps to the value of the last line
    that gives it; lines without a colon give nothing, and a name no line
    gives is absent. *)
Theorem C8_parse_headers (self : RoboCurl) (block : string) :
  let lines := split_crlf block in
  let self' := fst (parse_headers self block) in
  let d := snd (parse_headers self block) in
  String.concat crlf lines = block /\
  (exists first rest, lines = first :: rest /\ status_line self' = Some first) /\
  (c self', hdr self', headers self', payload self')
  = (c self, hdr self, headers self, payload self) /\
  d = header_dict_from ∅ lines /\
  (forall k v,
      d !! k = Some v <->
      exists before line after,
        lines = before ++ line :: after /\
        header_of line = Some (k, v) /\
        Forall (fun l => forall v', header_of l <> Some (k, v')) after) /\
  (forall line, header_of line = None <-> has_colon line = false) /\
  (forall line k v,
      header_of line = Some (k, v) <->
      exists name value,
        line = String.append name (String colon value) /\
        has_colon name = false /\ k = lower name /\ v = strip value).
Proof.
  intros lines self' d.
  assert (Hne : lines <> []) by apply split_crlf_from_nonempty.
  assert (Hjoin : String.concat crlf lines = block) by apply concat_split_crlf.
  assert (Hpair : parse_headers self block
                  = (with_status_line self (head lines), header_dict_from ∅ lines)).
  { unfold parse_headers. fold lines. rewrite parse_headers_fold.
    destruct (split_crlf block); [contradiction | reflexivity]. }
  unfold self', d. rewrite Hpair. cbn [fst snd].
  split; [exact Hjoin |].
  split.
  { destruct lines as [|first rest]; [contradiction |].
    exists first, rest. split; reflexivity. }
  split; [reflexivity |].
  split; [reflexivity |].
  split; [intros k v; apply header_dict_lookup |].
  split.
  - intros line. unfold header_of. rewrite <- split_colon_None.
    destruct (split_colon line) as [[name value]|]; split; congruence.
  - intros line k v. unfold header_of. split.
    + destruct (split_colon line) as [[name value]|] eqn:Hs; [| discriminate].
      intros [= <- <-]. apply split_colon_Some in Hs as [-> Hno].
      exists name, value. repeat split; assumption.
    + intros (name & value & Hline & Hno & -> & ->).
      rewrite (proj2 (split_colon_Some line name value) (conj Hline Hno)).
      reflexivity.
Qed.

(** C8 as stated fails on a block whose first line holds a colon: the dict
    has an entry from the status line, which the lines after it do not give. *)
Lemma C8_status_line_counterexample :
  snd (parse_headers RoboCurl_new colon_status_block) !! "http/1.1 200 ok"%string
  = Some "cached"%string /\
  spec_header_map colon_status_block !! "http/1.1 200 ok"%string = None /\
  snd (parse_headers RoboCurl_new colon_status_block)
  <> spec_header_map colon_status_block.
Proof.
  assert (Hcode : snd (parse_headers RoboCurl_new colon_status_block)
                    !! "http/1.1 200 ok"%string = Some "cached"%string)
    by (vm_compute; reflexivity).
  assert (Hspec : spec_header_map colon_status_block !! "http/1.1 200 ok"%string = None)
    by (vm_compute; reflexivity).
  split; [exact Hcode |]. split; [exact Hspec |].
  intros Heq. rewrite Heq, Hspec in Hcode. discriminate.
Qed.

(** ** Requests *)

Section Requests.
Context `{Zlib}.

Lemma parse_headers_eq (self : RoboCurl) (block : string) :
  parse_headers self block
  = (with_status_line self (head (split_crlf block)),
     header_dict_from ∅ (split_crlf block)).
Proof.
  pose proof (split_crlf_from_nonempty EmptyString block) as Hne.
  fold (split_crlf block) in Hne.
  unfold parse_headers. rewrite parse_headers_fold.
  destruct (split_crlf block); [contradiction | reflexivity].
Qed.

Lemma URL_setopt (h : Curl) (o : CurlOpt) :
  URL (setopt h o) = match o with OptUrl u => u | _ => URL h end.
Proof. destruct h, o; reflexivity. Qed.

Lemma REQUEST_setopt (h : Curl) (o : CurlOpt) :
  REQUEST (setopt h o)
  = match o with OptHttpGet => GET | OptPost => POST | _ => REQUEST h end.
Proof. destruct h, o; reflexivity. Qed.

(** The session [_do_request] leaves behind, whatever it returns: the
    handle has the URL it was given and the request method it came with,
    and once the transfer is done the status line is the first line of the
    header block. *)
Lemma do_request_session (self : RoboCurl) u hs net :
  let self' := fst (_do_request self u hs net) in
  URL (c self') = u /\
  REQUEST (c self') = REQUEST (c self) /\
  (forall body, snd (_do_request self u hs net) = Ok body ->
                status_line self' = head (split_crlf (t_hdr net))).
Proof.
  unfold _do_request.
  destruct (t_body net) as [body|]; cbn zeta.
  - rewrite parse_headers_eq.
    set (lines := split_crlf _).
    assert (Hlines : lines = split_crlf (t_hdr net)).
    { unfold lines. destruct (headers_truthy hs); reflexivity. }
    set (d := header_dict_from ∅ lines).
    destruct (string_eqb (default ""%string (headers _ !! "content-encoding"%string))
                "gzip"
              || string_eqb (default ""%string (headers _ !! "content-encoding"%string))
                   "deflate");
      [destruct (_get_decoder _) as [dec|e];
       [destruct (decoder_decompress dec _) as [out|e] |] |];
      cbn [fst snd with_payload with_headers with_status_line with_c with_hdr
             c status_line];
      destruct (headers_truthy hs);
      cbn [fst snd with_payload with_headers with_status_line with_c with_hdr
             c status_line];
      rewrite ?URL_setopt, ?REQUEST_setopt; cbn [set_effective_url URL REQUEST];
      rewrite ?URL_setopt, ?REQUEST_setopt;
      (split; [reflexivity | split; [reflexivity |]]);
      intros body' Hb; first [discriminate Hb | rewrite Hlines; reflexivity].
  - destruct (headers_truthy hs);
      cbn [fst snd with_payload with_headers with_status_line with_c with_hdr
             c status_line];
      rewrite ?URL_setopt, ?REQUEST_setopt; cbn [set_effective_url URL REQUEST];
      rewrite ?URL_setopt, ?REQUEST_setopt;
      (split; [reflexivity | split; [reflexivity |]]);
      intros body' Hb; discriminate Hb.
Qed.
End Requests.

Section Dispatch.
Context `{Zlib} `{Bs4} `{UrlLib}.

Lemma get_session (s : RoboCurl) u hs net :
  URL (c (fst (get s u hs net))) = u /\
  REQUEST (c (fst (get s u hs net))) = GET /\
  (forall body, snd (get s u hs net) = Ok body ->
                status_line (fst (get s u hs net)) = head (split_crlf (t_hdr net))).
Proof.
  unfold get.
  destruct (do_request_session (with_c s (setopt (c s) OptHttpGet)) u hs net)
    as (Hu & Hr & Hs).
  split; [exact Hu |]. split; [| exact Hs].
  rewrite Hr. simpl. rewrite REQUEST_setopt. reflexivity.
Qed.

Lemma post_session (s : RoboCurl) u params hs net :
  URL (c (fst (post s u params hs net))) = u /\
  REQUEST (c (fst (post s u params hs net))) = POST /\
  (forall body, snd (post s u params hs net) = Ok body ->
                status_line (fst (post s u params hs net))
                = head (split_crlf (t_hdr net))).
Proof.
  unfold post.
  match goal with
  | |- context [_do_request ?s0 u hs net] =>
      destruct (do_request_session s0 u hs net) as (Hu & Hr & Hs)
  end.
  split; [exact Hu |]. split; [| exact Hs].
  rewrite Hr. simpl. rewrite !REQUEST_setopt. reflexivity.
Qed.

Lemma session_get_session (s : RoboCurl) u params net :
  URL (c (fst (session_get s u params net))) = u /\
  REQUEST (c (fst (session_get s u params net))) = GET /\
  (forall body, snd (session_get s u params net) = Ok body ->
                status_line (fst (session_get s u params net))
                = head (split_crlf (t_hdr net))).
Proof.
  unfold session_get, _do_request_dict. destruct params as [|kv rest].
  - apply get_session.
  - cbn [fst snd with_c with_hdr with_headers c].
    rewrite URL_setopt, !REQUEST_setopt.
    split; [reflexivity | split; [reflexivity | discriminate]].
Qed.

(** The session after [open] is the one [get] leaves. *)
Lemma open_session (self : RoboBrowser) u hs net :
  session (fst (open self u hs net)) = fst (get (session self) u hs net) /\
  (snd (open self u hs net) = Ok tt ->
   exists body, snd (get (session self) u hs net) = Ok body).
Proof.
  unfold open. destruct (get (session self) u hs net) as [s [body|e]]; simpl.
  - destruct (update_state_config (with_session self s)) as (_ & _ & ->).
    split; [reflexivity | eauto].
  - split; [reflexivity | discriminate].
Qed.

Lemma submit_form_session (self : RoboBrowser) form submit net st :
  state self = Ok st ->
  let s0 := with_hdr (with_payload (session self) []) "" in
  let call := (if string_eqb (upper (method form)) "POST"
               then session_post else session_get)
                s0 (submit_target st form) (submit_params form submit) net in
  session (fst (submit_form self form submit net)) = fst call /\
  (snd (submit_form self form submit net) = Ok tt ->
   exists body, snd call = Ok body).
Proof.
  intros Hst s0 call. unfold submit_form, _build_url, browser_url.
  rewrite Hst. fold (submit_target st form). fold (submit_params form submit).
  assert (Hu : (if string_eqb (urljoin (url st) (action form)) ""
                then Ok (url st) else Ok (urljoin (url st) (action form)))
               = Ok (submit_target st form)).
  { unfold submit_target.
    destruct (string_eqb (urljoin (url st) (action form)) ""); reflexivity. }
  rewrite Hu. fold s0. fold call.
  destruct call as [s [body|e]]; simpl.
  - destruct (update_state_config (with_session self s)) as (_ & _ & ->).
    split; [reflexivity | eauto].
  - split; [reflexivity | discriminate].
Qed.
End Dispatch.

Section Snapshots.
Context `{Zlib} `{Bs4} `{UrlLib}.

(** After a navigation that returns, the current state is the new one. *)
Lemma navigation_current (self self' : RoboBrowser) (op : Op) :
  history_invariants self -> depth_ok self ->
  is_navigation op = true ->
  apply_op self op = (self', Ok tt) ->
  state self' = Ok (new_state self').
Proof.
  intros Hinv Hd Hnav Hop.
  pose proof (apply_op_navigated self op Hnav) as Hn.
  rewrite Hop in Hn. simpl in Hn.
  apply navigated_ok in Hn as [s ->].
  rewrite new_state_update_state.
  apply update_state_current; [exact (proj1 Hinv) | exact Hd].
Qed.

Lemma open_status_line (self self' : RoboBrowser) u hs net :
  open self u hs net = (self', Ok tt) ->
  status_line (session self') = head (split_crlf (t_hdr net)).
Proof.
  intros Hop. destruct (open_session self u hs net) as [Hs Hok].
  rewrite Hop in Hs, Hok. simpl in Hs, Hok.
  destruct (Hok eq_refl) as [body Hbody].
  rewrite Hs. eapply get_session. exact Hbody.
Qed.

Lemma submit_form_has_state (self self' : RoboBrowser) form submit net :
  submit_form self form submit net = (self', Ok tt) ->
  exists st, state self = Ok st.
Proof.
  unfold submit_form, _build_url, browser_url.
  destruct (state self) as [st|e]; [eauto | discriminate].
Qed.

(** After a navigation that returns, the session's status line is the
    first line of the header block of its transfer. *)
Lemma navigation_status_line (self self' : RoboBrowser) (op : Op) net :
  op_transfer op = Some net ->
  apply_op self op = (self', Ok tt) ->
  status_line (session self') = head (split_crlf (t_hdr net)).
Proof.
  destruct op as [u hs n | link hs n | form submit n | k | k]; simpl;
    try discriminate; intros [= ->] Hop.
  - eapply open_status_line; exact Hop.
  - unfold follow_link in Hop.
    destruct (link !! "href"%string) as [href|]; [| discriminate].
    destruct (_build_url self href) as [target|e]; [| discriminate].
    eapply open_status_line; exact Hop.
  - destruct (submit_form_has_state _ _ _ _ _ Hop) as [st Hst].
    destruct (submit_form_session self form submit net st Hst) as [Hs Hok].
    rewrite Hop in Hs, Hok. simpl in Hs, Hok.
    destruct (Hok eq_refl) as [body Hbody]. rewrite Hs.
    destruct (string_eqb (upper (method form)) "POST").
    + eapply post_session. exact Hbody.
    + eapply session_get_session. exact Hbody.
Qed.
End Snapshots.

(** C9.  After a navigation that returns ([open], [follow_link] or
    [submit_form]), the current state is the new page state, the
    [status_line] of its response is the empty string, and the status line
    of the transfer, the first line of its header block, is on the session
    only. *)
Theorem C9_response_status_line_empty `{Zlib} `{Bs4} `{UrlLib}
  (self self' : RoboBrowser) (op : Op) (net : Transfer) :
  history_invariants self -> depth_ok self ->
  op_transfer op = Some net ->
  apply_op self op = (self', Ok tt) ->
  exists st first rest,
    state self' = Ok st /\
    last (_states self') = Some st /\
    resp_status_line (response st) = ""%string /\
    split_crlf (t_hdr net) = first :: rest /\
    status_line (session self') = Some first.
Proof.
  intros Hinv Hd Hnet Hop.
  assert (Hnav : is_navigation op = true) by (destruct op; simpl in *; congruence).
  pose proof (navigation_current self self' op Hinv Hd Hnav Hop) as Hcur.
  pose proof (navigation_status_line self self' op net Hnet Hop) as Hstatus.
  pose proof (split_crlf_from_nonempty EmptyString (t_hdr net)) as Hne.
  fold (split_crlf (t_hdr net)) in Hne.
  destruct (split_crlf (t_hdr net)) as [|first rest] eqn:Hlines; [contradiction |].
  exists (new_state self'), first, rest.
  split; [exact Hcur |]. split; [| split; [reflexivity | split; [reflexivity | exact Hstatus]]].
  pose proof (apply_op_navigated self op Hnav) as Hn.
  rewrite Hop in Hn. simpl in Hn. apply navigated_ok in Hn as [s ->].
  rewrite new_state_update_state.
  destruct (update_state_stack (with_session self s)) as [Hs _];
    [exact (proj1 (proj1 Hinv)) | exact Hd |].
  rewrite Hs. unfold pushed. rewrite drop_app_le.
  - apply last_snoc.
  - pose proof (evicted_bound (with_session self s) (proj1 Hinv) Hd) as Hev.
    unfold pushed in Hev. rewrite length_app in Hev. simpl in Hev |- *. lia.
Qed.

Lemma C9_response_status_line_empty_witness :
  let op := visit "c" [Byte.x43] in
  let self' := fst (@apply_op toy_zlib toy_bs4 toy_urllib two_pages op) in
  exists st,
    state self' = Ok st /\
    resp_status_line (response st) = ""%string /\
    status_line (session self') = Some "HTTP/1.1 200 OK"%string.
Proof.
  intros op self'.
  destruct (@C9_response_status_line_empty toy_zlib toy_bs4 toy_urllib
              two_pages self' op (page "http://h/c" [Byte.x43])
              (proj1 two_pages_invariants) (proj2 two_pages_invariants)
              eq_refl eq_refl)
    as (st & first & rest & Hst & _ & Hempty & Hlines & Hstatus).
  exists st. split; [exact Hst |]. split; [exact Hempty |].
  rewrite Hstatus. f_equal.
  assert (Hfirst : head (split_crlf (t_hdr (page "http://h/c" [Byte.x43])))
                   = Some "HTTP/1.1 200 OK"%string) by reflexivity.
  rewrite Hlines in Hfirst. injection Hfirst as ->. reflexivity.
Defined.

(** ** The verb of a submitted form *)



(** ** The URL a navigation requests *)

(** C4 (as amended).  [open] hands its [url] argument to the transport as it
    is, relative or absolute, with or without a current state: the handle's
    URL is the argument.  Resolution against the URL of the current page is
    done by [follow_link], which opens the joined URL. *)
Theorem C4_open_passes_url_unchanged `{Zlib} `{Bs4} `{UrlLib} :
  (forall (self : RoboBrowser) u hs net,
      session (fst (open self u hs net)) = fst (get (session self) u hs net) /\
      URL (c (session (fst (open self u hs net)))) = u) /\
  (forall (self : RoboBrowser) (link : gmap string string) hs net href st,
      link !! "href"%string = Some href ->
      state self = Ok st ->
      follow_link self link hs net = open self (urljoin (url st) href) hs net /\
      URL (c (session (fst (follow_link self link hs net)))) = urljoin (url st) href).
Proof.
  assert (Hopen : forall (self : RoboBrowser) u hs net,
             session (fst (open self u hs net)) = fst (get (session self) u hs net) /\
             URL (c (session (fst (open self u hs net)))) = u).
  { intros self u hs net. destruct (open_session self u hs net) as [Hs _].
    split; [exact Hs |]. rewrite Hs. apply get_session. }
  split; [exact Hopen |].
  intros self link hs net href st Hhref Hst.
  assert (Hfl : follow_link self link hs net = open self (urljoin (url st) href) hs net).
  { unfold follow_link, _build_url, browser_url. rewrite Hhref, Hst. reflexivity. }
  split; [exact Hfl |]. rewrite Hfl. apply Hopen.
Qed.

Lemma C4_open_passes_url_unchanged_witness :
  URL (c (session (fst (@open toy_zlib toy_bs4 one_page "next" NoHeaders
                          (page "http://h/next" [])))))
  = "next"%string /\
  URL (c (session (fst (@follow_link toy_zlib toy_bs4 toy_urllib one_page
                          {[ "href"%string := "next"%string ]} NoHeaders
                          (page "http://h/dir/next" [])))))
  = "http://h/dir/next"%string.
Proof.
  split.
  - apply (proj1 (@C4_open_passes_url_unchanged toy_zlib toy_bs4 toy_urllib)).
  - apply (proj2 (@C4_open_passes_url_unchanged toy_zlib toy_bs4 toy_urllib)
             one_page {[ "href"%string := "next"%string ]} NoHeaders
             (page "http://h/dir/next" []) "next"%string (new_state one_page)).
    + reflexivity.
    + reflexivity.
Defined.

(** C4 as stated fails for a relative URL: on the page [http://h/dir/index],
    [open "next"] requests [next], not [http://h/dir/next]. *)
Lemma C4_open_relative_counterexample :
  @spec_open_target toy_bs4 toy_urllib one_page "next"
  = Ok "http://h/dir/next"%string /\
  URL (c (session (fst (@open toy_zlib toy_bs4 one_page "next" NoHeaders
                          (page "http://h/next" [])))))
  = "next"%string /\
  Ok (URL (c (session (fst (@open toy_zlib toy_bs4 one_page "next" NoHeaders
                              (page "http://h/next" []))))))
  <> @spec_open_target toy_bs4 toy_urllib one_page "next".
Proof.
  split; [reflexivity |]. split; [reflexivity |].
  vm_compute. discriminate.
Qed.

(** ** The deflate decoder *)

Section Deflate.
Context `{Zlib}.

(** What [decompress] does on a decoder that could be built: a stream the
    zlib object accepts is decoded by it, with no fallback. *)
Lemma decompress_zlib_first_try (data out : bytes) (o : zobj) :
  zobj_decompress (zlib_decompressobj MAX_WBITS) data = Some (out, o) ->
  decompress DeflateDecoder_bound data
  = ({| _first_try := true; _data := Some data; _obj := o |}, Ok out).
Proof.
  intros Hz. unfold decompress, DeflateDecoder_bound; simpl.
  rewrite Hz. reflexivity.
Qed.

(** A stream the zlib object rejects on the first call goes once more,
    from the buffer, through a raw object, which stays in use. *)
Lemma decompress_raw_fallback (data out : bytes) (o : zobj) :
  zobj_decompress (zlib_decompressobj MAX_WBITS) data = None ->
  zobj_decompress (zlib_decompressobj (- MAX_WBITS)) data = Some (out, o) ->
  decompress DeflateDecoder_bound data
  = ({| _first_try := false; _data := None; _obj := o |}, Ok out).
Proof.
  intros Hz Hraw. unfold decompress, DeflateDecoder_bound, obj_decompress; simpl.
  rewrite Hz, Hraw. reflexivity.
Qed.

Lemma decompress_after_fallback (d : DeflateDecoder) (data : bytes) :
  _first_try d = false -> decompress d data = obj_decompress d data.
Proof. intros Hf. unfold decompress. rewrite Hf. reflexivity. Qed.
End Deflate.

(** C3.  The module never binds [binary_type], so building a
    [DeflateDecoder] raises [NameError] before any byte is decoded:
    [_get_decoder] raises for every mode but "gzip", and a request whose
    response declares [deflate] raises instead of returning the plaintext,
    whether the body is a raw stream or a zlib one. *)
Theorem C3_deflate_decoder_unbound_name `{Zlib}
  (self : RoboCurl) (u : string) (hs : PyHeaders) (net : Transfer) (body : bytes) :
  t_body net = Some body ->
  header_dict_from ∅ (split_crlf (t_hdr net)) !! "content-encoding"%string
  = Some "deflate"%string ->
  DeflateDecoder_init = Raise (NameError "binary_type") /\
  _get_decoder "deflate" = Raise (NameError "binary_type") /\
  snd (_do_request self u hs net) = Raise (NameError "binary_type").
Proof.
  intros Hbody Henc.
  split; [reflexivity |]. split; [reflexivity |].
  unfold _do_request. rewrite Hbody. cbn zeta.
  rewrite parse_headers_eq.
  assert (Hd : forall s0 : RoboCurl,
             hdr s0 = t_hdr net ->
             default ""%string
               (headers (with_headers (with_status_line s0 (head (split_crlf (hdr s0))))
                           (header_dict_from ∅ (split_crlf (hdr s0))))
                  !! "content-encoding"%string)
             = "deflate"%string).
  { intros s0 ->. cbn [headers with_headers]. rewrite Henc. reflexivity. }
  destruct (headers_truthy hs); rewrite Hd by reflexivity; reflexivity.
Qed.

Lemma C3_deflate_decoder_unbound_name_witness :
  header_dict_from ∅ (split_crlf (t_hdr deflate_page)) !! "content-encoding"%string
  = Some "deflate"%string /\
  @zobj_decompress toy_zlib (zlib_decompressobj (- MAX_WBITS)) [Byte.x41; Byte.x42]
  = Some ([Byte.x41; Byte.x42], (- MAX_WBITS)%Z) /\
  snd (@get toy_zlib RoboCurl_new "http://h/z" NoHeaders deflate_page)
  = Raise (NameError "binary_type").
Proof.
  assert (Henc : header_dict_from ∅ (split_crlf (t_hdr deflate_page))
                   !! "content-encoding"%string = Some "deflate"%string)
    by (vm_compute; reflexivity).
  split; [exact Henc |]. split; [reflexivity |].
  apply (@C3_deflate_decoder_unbound_name toy_zlib _ "http://h/z"%string NoHeaders
           deflate_page [Byte.x41; Byte.x42] eq_refl Henc).
Defined.

(** ** Outside the configured range *)

(** A negative integer depth is not a length: the first push then empties
    the states and leaves the cursor at -2.  [history_arg_ok] rules it out. *)
Lemma negative_depth_breaks_cursor :
  let b := toy_run (HistInt (-1)) [visit "a" [Byte.x41]] in
  _states b = [] /\ _cursor b = -2.
Proof. split; reflexivity. Qed.

(** * Further properties of the module *)

(** ** Names and values of parsed headers *)

Lemma lower_char_idem (ch : ascii) : lower_char (lower_char ch) = lower_char ch.
Proof. destruct ch as [[] [] [] [] [] [] [] []]; vm_compute; reflexivity. Qed.

Lemma lower_char_colon (ch : ascii) :
  Ascii.eqb (lower_char ch) colon = Ascii.eqb ch colon.
Proof. destruct ch as [[] [] [] [] [] [] [] []]; vm_compute; reflexivity. Qed.

Lemma lower_idem (s : string) : lower (lower s) = lower s.
Proof.
  induction s as [|ch t IH]; simpl; [reflexivity |].
  rewrite lower_char_idem, IH. reflexivity.
Qed.

Lemma has_colon_lower (s : string) : has_colon (lower s) = has_colon s.
Proof.
  induction s as [|ch t IH]; simpl; [reflexivity |].
  rewrite lower_char_colon, IH. reflexivity.
Qed.

Lemma lstrip_starts_clean (s : string) : starts_clean (lstrip s).
Proof.
  induction s as [|ch t IH]; simpl; [exact I |].
  destruct (isspace ch) eqn:Hsp; [exact IH | exact Hsp].
Qed.

Lemma lstrip_clean (s : string) : starts_clean s -> lstrip s = s.
Proof. destruct s as [|ch t]; simpl; [reflexivity |]. intros ->. reflexivity. Qed.

Lemma rstrip_cons_clean (ch : ascii) (t : string) :
  isspace ch = false -> rstrip (String ch t) = String ch (rstrip t).
Proof.
  intros Hsp. simpl. rewrite Hsp. destruct (rstrip t); reflexivity.
Qed.

Lemma rstrip_starts_clean (s : string) : starts_clean s -> starts_clean (rstrip s).
Proof.
  destruct s as [|ch t]; [intros _; exact I |].
  intros Hsp. simpl in Hsp. rewrite rstrip_cons_clean by exact Hsp. exact Hsp.
Qed.

Lemma rstrip_idem (s : string) : rstrip (rstrip s) = rstrip s.
Proof.
  induction s as [|ch t IH]; [reflexivity |].
  cbn [rstrip]. destruct (rstrip t) as [|a r] eqn:Hr.
  - destruct (isspace ch) eqn:Hsp; [reflexivity |].
    cbn [rstrip]. rewrite Hsp. reflexivity.
  - cbn [rstrip]. cbn [rstrip] in IH.
    destruct (rstrip r) as [|b r'] eqn:Hrr.
    + destruct (isspace a); [discriminate IH | rewrite IH; reflexivity].
    + rewrite IH. reflexivity.
Qed.

Lemma strip_idem (s : string) : strip (strip s) = strip s.
Proof.
  unfold strip.
  rewrite (lstrip_clean (rstrip (lstrip s)))
    by (apply rstrip_starts_clean, lstrip_starts_clean).
  apply rstrip_idem.
Qed.

Lemma header_of_parts (line k v : string) :
  header_of line = Some (k, v) ->
  exists name value,
    line = String.append name (String colon value) /\
    has_colon name = false /\ k = lower name /\ v = strip value.
Proof.
  unfold header_of.
  destruct (split_colon line) as [[name value]|] eqn:Hs; [| discriminate].
  intros [= <- <-]. apply split_colon_Some in Hs as [-> Hno].
  exists name, value. repeat split; assumption.
Qed.

(** X1.  Every name in the dict [parse_headers] returns is lowercase and
    holds no colon, and every value is free of surrounding whitespace:
    lowering the name or stripping the value again changes nothing. *)
Theorem X1_parsed_names_lower_values_stripped
  (self : RoboCurl) (block k v : string) :
  snd (parse_headers self block) !! k = Some v ->
  lower k = k /\ has_colon k = false /\
  strip v = v /\ starts_clean v.
Proof.
  intros Hlook. rewrite parse_headers_eq in Hlook. cbn [snd] in Hlook.
  apply header_dict_lookup in Hlook as (before & line & after & _ & Hline & _).
  apply header_of_parts in Hline as (name & value & _ & Hno & -> & ->).
  split; [apply lower_idem |].
  split; [rewrite has_colon_lower; exact Hno |].
  split; [apply strip_idem |].
  unfold strip. apply rstrip_starts_clean, lstrip_starts_clean.
Qed.

Lemma X1_parsed_names_lower_values_stripped_witness :
  snd (parse_headers RoboCurl_new mixed_block) !! "content-type"%string
  = Some "text/html"%string /\
  lower "content-type" = "content-type"%string /\
  strip "text/html" = "text/html"%string.
Proof.
  assert (Hlook : snd (parse_headers RoboCurl_new mixed_block) !! "content-type"%string
                  = Some "text/html"%string) by (vm_compute; reflexivity).
  destruct (X1_parsed_names_lower_values_stripped RoboCurl_new mixed_block
              "content-type"%string "text/html"%string Hlook) as (Hk & _ & Hv & _).
  split; [exact Hlook |]. split; [exact Hk | exact Hv].
Defined.

(** ** What a request leaves on the session *)

Section RequestState.
Context `{Zlib}.

Lemma HTTPHEADER_setopt (h : Curl) (o : CurlOpt) :
  HTTPHEADER (setopt h o) = match o with OptHttpHeader x => x | _ => HTTPHEADER h end.
Proof. destruct h, o; reflexivity. Qed.

Lemma POSTFIELDS_setopt (h : Curl) (o : CurlOpt) :
  POSTFIELDS (setopt h o) = match o with OptPostFields x => x | _ => POSTFIELDS h end.
Proof. destruct h, o; reflexivity. Qed.

Lemma EFFECTIVE_URL_setopt (h : Curl) (o : CurlOpt) :
  EFFECTIVE_URL (setopt h o) = EFFECTIVE_URL h.
Proof. destruct h, o; reflexivity. Qed.

(** A transfer that fails: the call raises, and the session keeps the
    payload and status line it had. *)
Lemma do_request_failed (self : RoboCurl) u hs net :
  t_body net = None ->
  let s' := fst (_do_request self u hs net) in
  snd (_do_request self u hs net) = Raise PycurlError /\
  hdr s' = t_hdr net /\ headers s' = ∅ /\
  payload s' = payload self /\ status_line s' = status_line self /\
  URL (c s') = u /\ EFFECTIVE_URL (c s') = t_url net /\
  HTTPHEADER (c s') = (if headers_truthy hs then hs else HTTPHEADER (c self)).
Proof.
  intros Hbody. unfold _do_request. rewrite Hbody. cbn zeta.
  destruct (headers_truthy hs); cbn [fst snd];
    cbn [with_payload with_headers with_status_line with_c with_hdr
           c hdr headers payload status_line];
    cbn [set_effective_url URL EFFECTIVE_URL HTTPHEADER];
    rewrite ?URL_setopt, ?HTTPHEADER_setopt; repeat split; reflexivity.
Qed.

(** A transfer that completes: the session [s1] before any decoding, and
    the result as the content encoding decides it. *)
Lemma do_request_completed (self : RoboCurl) u hs net body :
  t_body net = Some body ->
  exists s1 : RoboCurl,
    (hdr s1 = t_hdr net /\
     headers s1 = header_dict_from ∅ (split_crlf (t_hdr net)) /\
     payload s1 = body /\
     status_line s1 = head (split_crlf (t_hdr net))) /\
    (URL (c s1) = u /\ EFFECTIVE_URL (c s1) = t_url net /\
     REQUEST (c s1) = REQUEST (c self) /\
     POSTFIELDS (c s1) = POSTFIELDS (c self) /\
     HTTPHEADER (c s1)
     = (if headers_truthy hs then HeaderList (empty_headers (headers_iter hs))
        else HTTPHEADER (c self))) /\
    _do_request self u hs net
    = (let enc := default ""%string (headers s1 !! "content-encoding"%string) in
       if string_eqb enc "gzip" || string_eqb enc "deflate"
       then match _get_decoder enc with
            | Raise e => (s1, Raise e)
            | Ok dec =>
                match decoder_decompress dec body with
                | Raise e => (s1, Raise e)
                | Ok out => (with_payload s1 out, Ok out)
                end
            end
       else (s1, Ok body)).
Proof.
  intros Hbody. unfold _do_request. rewrite Hbody. cbn zeta.
  rewrite parse_headers_eq.
  match goal with
  | |- context [with_headers ?s0 ?d0] => exists (with_headers s0 d0)
  end.
  split; [| split].
  - destruct (headers_truthy hs); repeat split; reflexivity.
  - destruct (headers_truthy hs);
      cbn [with_payload with_headers with_status_line with_c with_hdr c];
      rewrite ?URL_setopt, ?HTTPHEADER_setopt, ?REQUEST_setopt,
        ?POSTFIELDS_setopt, ?EFFECTIVE_URL_setopt;
      cbn [set_effective_url URL EFFECTIVE_URL HTTPHEADER REQUEST POSTFIELDS];
      rewrite ?URL_setopt, ?HTTPHEADER_setopt, ?REQUEST_setopt,
        ?POSTFIELDS_setopt, ?EFFECTIVE_URL_setopt;
      repeat split; reflexivity.
  - destruct (headers_truthy hs); reflexivity.
Qed.
End RequestState.

Section RequestResults.
Context `{Zlib}.

(** Decoding touches the payload only: everything else a completed request
    leaves on the session is decided by the transfer and the arguments. *)
Lemma do_request_completed_fields (self : RoboCurl) u hs net body :
  t_body net = Some body ->
  let s' := fst (_do_request self u hs net) in
  (hdr s' = t_hdr net /\
   headers s' = header_dict_from ∅ (split_crlf (t_hdr net)) /\
   status_line s' = head (split_crlf (t_hdr net))) /\
  (URL (c s') = u /\ EFFECTIVE_URL (c s') = t_url net /\
   REQUEST (c s') = REQUEST (c self) /\
   POSTFIELDS (c s') = POSTFIELDS (c self) /\
   HTTPHEADER (c s')
   = (if headers_truthy hs then HeaderList (empty_headers (headers_iter hs))
      else HTTPHEADER (c self))) /\
  (forall out, snd (_do_request self u hs net) = Ok out -> payload s' = out).
Proof.
  intros Hbody.
  destruct (do_request_completed self u hs net body Hbody)
    as (s1 & (Hh & Hd & Hp & Hs) & Hc & ->).
  cbn zeta.
  destruct (string_eqb _ "gzip" || string_eqb _ "deflate");
    [destruct (_get_decoder _) as [dec|e];
     [destruct (decoder_decompress dec body) as [out|e] |] |];
    cbn [fst snd with_payload hdr headers status_line c payload];
    (split; [repeat split; assumption | split; [exact Hc |]]);
    intros out' Hout; try discriminate Hout; injection Hout as <-;
    first [reflexivity | exact Hp].
Qed.

Lemma empty_headers_elem (l : list string) (e : string) :
  e ∈ empty_headers l <->
  exists h name value,
    h ∈ l /\ split_colon h = Some (name, value) /\ e = String.append name ":".
Proof.
  induction l as [|h l IH]; simpl.
  - split; [intros Hin; inversion Hin |].
    intros (h & name & value & Hin & _). inversion Hin.
  - destruct (split_colon h) as [[name value]|] eqn:Hs.
    + rewrite elem_of_cons, IH. split.
      * intros [-> | (h' & n' & v' & Hin & Hs' & ->)].
        -- exists h, name, value. repeat split; [left | assumption].
        -- exists h', n', v'. repeat split; [right; assumption | assumption].
      * intros (h' & n' & v' & Hin & Hs' & ->).
        apply elem_of_cons in Hin as [-> | Hin].
        -- left. rewrite Hs in Hs'. injection Hs' as <- _. reflexivity.
        -- right. exists h', n', v'. repeat split; assumption.
    + rewrite IH. split.
      * intros (h' & n' & v' & Hin & Hs' & ->).
        exists h', n', v'. repeat split; [right; assumption | assumption].
      * intros (h' & n' & v' & Hin & Hs' & ->).
        apply elem_of_cons in Hin as [-> | Hin]; [congruence |].
        exists h', n', v'. repeat split; assumption.
Qed.

Lemma header_of_blank (name : string) :
  has_colon name = false ->
  header_of (String.append name ":") = Some (lower name, ""%string).
Proof.
  intros Hno. unfold header_of.
  rewrite (proj2 (split_colon_Some (String.append name ":") name ""%string)
             (conj eq_refl Hno)).
  reflexivity.
Qed.
End RequestResults.

(** X2.  The response headers on the session never carry over from an
    earlier request: after [_do_request], [hdr] is the header block of this
    transfer, and [headers] is the dict parsed from it when the transfer
    completes and empty when it fails, whatever the session held before. *)
Theorem X2_response_headers_fresh `{Zlib}
  (self other : RoboCurl) (u u' : string) (hs hs' : PyHeaders) (net : Transfer) :
  let s' := fst (_do_request self u hs net) in
  hdr s' = t_hdr net /\
  headers s'
  = match t_body net with
    | Some _ => header_dict_from ∅ (split_crlf (t_hdr net))
    | None => ∅
    end /\
  headers (fst (_do_request other u' hs' net)) = headers s'.
Proof.
  intros s'.
  assert (Hgen : forall s0 v h0,
             hdr (fst (_do_request s0 v h0 net)) = t_hdr net /\
             headers (fst (_do_request s0 v h0 net))
             = match t_body net with
               | Some _ => header_dict_from ∅ (split_crlf (t_hdr net))
               | None => ∅
               end).
  { intros s0 v h0. destruct (t_body net) as [body|] eqn:Hbody.
    - destruct (do_request_completed_fields s0 v h0 net body Hbody)
        as ((Hh & Hd & _) & _). split; assumption.
    - destruct (do_request_failed s0 v h0 net Hbody) as (_ & Hh & Hd & _).
      split; assumption. }
  destruct (Hgen self u hs) as [Hh Hd].
  split; [exact Hh |]. split; [exact Hd |].
  unfold s'. rewrite Hd. apply Hgen.
Qed.

(** X3.  When the transfer completes and the response's content encoding is
    neither "gzip" nor "deflate" (or is absent), [_do_request] returns the
    body as it came and keeps it as the session's payload. *)
Theorem X3_plain_body_returned `{Zlib}
  (self : RoboCurl) (u : string) (hs : PyHeaders) (net : Transfer) (body : bytes) :
  t_body net = Some body ->
  default ""%string
    (header_dict_from ∅ (split_crlf (t_hdr net)) !! "content-encoding"%string)
  <> "gzip"%string ->
  default ""%string
    (header_dict_from ∅ (split_crlf (t_hdr net)) !! "content-encoding"%string)
  <> "deflate"%string ->
  snd (_do_request self u hs net) = Ok body /\
  payload (fst (_do_request self u hs net)) = body.
Proof.
  intros Hbody Hgz Hdf.
  destruct (do_request_completed self u hs net body Hbody)
    as (s1 & (_ & Hd & Hp & _) & _ & ->).
  cbn zeta. rewrite Hd. unfold string_eqb.
  rewrite !bool_decide_eq_false_2 by assumption.
  split; [reflexivity | exact Hp].
Qed.

Lemma X3_plain_body_returned_witness :
  snd (@get toy_zlib RoboCurl_new "http://h/a" NoHeaders (page "http://h/a" [Byte.x41]))
  = Ok [Byte.x41].
Proof.
  apply (@X3_plain_body_returned toy_zlib _ "http://h/a"%string NoHeaders
           (page "http://h/a" [Byte.x41]) [Byte.x41] eq_refl).
  - vm_compute. discriminate.
  - vm_compute. discriminate.
Defined.

(** X4.  When the transfer completes and the response declares
    "gzip", the body goes through a zlib object made with window bits
    [16 + MAX_WBITS]: its output is returned and becomes the payload; if the
    object raises, the call raises [zlib.error] and the payload stays the
    undecoded body. *)
Theorem X4_gzip_body_decoded `{Zlib}
  (self : RoboCurl) (u : string) (hs : PyHeaders) (net : Transfer) (body : bytes) :
  t_body net = Some body ->
  header_dict_from ∅ (split_crlf (t_hdr net)) !! "content-encoding"%string
  = Some "gzip"%string ->
  match zobj_decompress (zlib_decompressobj (16 + MAX_WBITS)) body with
  | Some (out, _) =>
      snd (_do_request self u hs net) = Ok out /\
      payload (fst (_do_request self u hs net)) = out
  | None =>
      snd (_do_request self u hs net) = Raise ZlibError /\
      payload (fst (_do_request self u hs net)) = body
  end.
Proof.
  intros Hbody Henc.
  destruct (do_request_completed self u hs net body Hbody)
    as (s1 & (_ & Hd & Hp & _) & _ & ->).
  cbn zeta. rewrite Hd, Henc. cbn [from_option id].
  change (string_eqb "gzip" "gzip" || string_eqb "gzip" "deflate") with true.
  cbv iota.
  change (_get_decoder "gzip")
    with (Ok (GzipDecoder (zlib_decompressobj (16 + MAX_WBITS)))).
  cbn [decoder_decompress].
  destruct (zobj_decompress (zlib_decompressobj (16 + MAX_WBITS)) body)
    as [[out o]|]; cbn [fst snd];
    split; [reflexivity | reflexivity | reflexivity | exact Hp].
Qed.

Lemma X4_gzip_body_decoded_witness :
  snd (@get toy_zlib RoboCurl_new "http://h/g" NoHeaders gzip_page)
  = Ok [Byte.x41; Byte.x42] /\
  snd (@get toy_zlib RoboCurl_new "http://h/g" NoHeaders bad_gzip_page)
  = Raise ZlibError.
Proof.
  assert (Henc : header_dict_from ∅ (split_crlf (t_hdr gzip_page))
                   !! "content-encoding"%string = Some "gzip"%string)
    by (vm_compute; reflexivity).
  split.
  - apply (@X4_gzip_body_decoded toy_zlib
             (with_c RoboCurl_new (setopt (c RoboCurl_new) OptHttpGet))
             "http://h/g"%string NoHeaders gzip_page
             [Byte.x1f; Byte.x41; Byte.x42] eq_refl Henc).
  - apply (@X4_gzip_body_decoded toy_zlib
             (with_c RoboCurl_new (setopt (c RoboCurl_new) OptHttpGet))
             "http://h/g"%string NoHeaders bad_gzip_page
             [Byte.x41; Byte.x42] eq_refl Henc).
Defined.

(** X5.  When the transfer fails, [open] raises [pycurl.error] and pushes
    nothing: states and cursor are as before.  The session keeps the payload
    of the previous request, its headers are empty, and custom headers given
    to the call stay set on the handle, since the step that blanks them is
    not reached. *)
Theorem X5_failed_transfer_open `{Zlib} `{Bs4}
  (self : RoboBrowser) (u : string) (hs : PyHeaders) (net : Transfer) :
  t_body net = None ->
  let r := open self u hs net in
  snd r = Raise PycurlError /\
  _states (fst r) = _states self /\ _cursor (fst r) = _cursor self /\
  payload (session (fst r)) = payload (session self) /\
  headers (session (fst r)) = ∅ /\
  HTTPHEADER (c (session (fst r)))
  = (if headers_truthy hs then hs else HTTPHEADER (c (session self))).
Proof.
  intros Hbody r. unfold r, open, get.
  destruct (do_request_failed
              (with_c (session self) (setopt (c (session self)) OptHttpGet))
              u hs net Hbody) as (Hr & _ & Hd & Hp & _ & _ & _ & Hh).
  destruct (_do_request _ u hs net) as [s' res]. cbn [fst snd] in *.
  subst res. cbn [fst snd with_session session _states _cursor].
  cbn [with_c payload c] in Hp, Hh. rewrite HTTPHEADER_setopt in Hh.
  repeat split; assumption.
Qed.

Lemma X5_failed_transfer_open_witness :
  let r := @open toy_zlib toy_bs4 one_page "http://h/x" custom_headers
             broken_transfer in
  snd r = Raise PycurlError /\
  _states (fst r) = _states one_page /\
  payload (session (fst r)) = [Byte.x41] /\
  HTTPHEADER (c (session (fst r))) = custom_headers.
Proof.
  intros r.
  destruct (@X5_failed_transfer_open toy_zlib toy_bs4 one_page "http://h/x"%string
              custom_headers broken_transfer eq_refl)
    as (Hr & Hs & _ & Hp & _ & Hh).
  split; [exact Hr |]. split; [exact Hs |]. split; [exact Hp | exact Hh].
Defined.

(** X6.  When the transfer completes and the call was given custom
    headers, the handle is left with one blanked header for each given header
    that holds a colon, its name followed by a colon and nothing else, and
    with nothing for a header without a colon: each entry left names a
    header with an empty value. *)
Theorem X6_custom_headers_blanked `{Zlib}
  (self : RoboCurl) (u : string) (hs : PyHeaders) (net : Transfer) (body : bytes) :
  t_body net = Some body ->
  headers_truthy hs = true ->
  let blanks := empty_headers (headers_iter hs) in
  HTTPHEADER (c (fst (_do_request self u hs net))) = HeaderList blanks /\
  (forall e, e ∈ blanks <->
             exists h name value,
               h ∈ headers_iter hs /\ split_colon h = Some (name, value) /\
               e = String.append name ":") /\
  (forall e, e ∈ blanks ->
             exists name, e = String.append name ":" /\
                          header_of e = Some (lower name, ""%string)).
Proof.
  intros Hbody Htruthy blanks.
  destruct (do_request_completed_fields self u hs net body Hbody)
    as (_ & (_ & _ & _ & _ & Hh) & _).
  rewrite Htruthy in Hh.
  split; [exact Hh |]. split; [intros e; apply empty_headers_elem |].
  intros e He. apply empty_headers_elem in He as (h & name & value & _ & Hs & ->).
  apply split_colon_Some in Hs as [_ Hno].
  exists name. split; [reflexivity | apply header_of_blank; exact Hno].
Qed.

Lemma X6_custom_headers_blanked_witness :
  HTTPHEADER (c (fst (@get toy_zlib RoboCurl_new "http://h/a" custom_headers
                        (page "http://h/a" [Byte.x41]))))
  = HeaderList ["X-Token:"; "Accept:"]%string.
Proof.
  apply (@X6_custom_headers_blanked toy_zlib
           (with_c RoboCurl_new (setopt (c RoboCurl_new) OptHttpGet))
           "http://h/a"%string custom_headers (page "http://h/a" [Byte.x41])
           [Byte.x41] eq_refl eq_refl).
Defined.

(** ** The decoder across calls *)

(** X7.  A first call that the zlib object accepts leaves the decoder in
    its first-try state, with the chunk kept in the buffer.  If the object
    then rejects a later chunk, the decoder switches to a raw object and
    feeds it everything buffered since the start, the chunks already
    decoded included; from then on the buffer is dropped. *)
Theorem X7_late_fallback_reads_whole_buffer `{Zlib}
  (d : DeflateDecoder) (buf c1 c2 out1 : bytes) (o1 : zobj) :
  _first_try d = true ->
  _data d = Some buf ->
  zobj_decompress (_obj d) c1 = Some (out1, o1) ->
  zobj_decompress o1 c2 = None ->
  decompress d c1
  = ({| _first_try := true; _data := Some (buf ++ c1); _obj := o1 |}, Ok out1) /\
  decompress_chunks d [c1; c2]
  = match zobj_decompress (zlib_decompressobj (- MAX_WBITS)) ((buf ++ c1) ++ c2) with
    | Some (out, o) =>
        ({| _first_try := false; _data := None; _obj := o |}, [Ok out1; Ok out])
    | None =>
        ({| _first_try := false; _data := None;
            _obj := zlib_decompressobj (- MAX_WBITS) |},
         [Ok out1; Raise ZlibError])
    end.
Proof.
  intros Hf Hb Hz1 Hz2.
  assert (H1 : decompress d c1
               = ({| _first_try := true; _data := Some (buf ++ c1); _obj := o1 |},
                  Ok out1)).
  { unfold decompress. rewrite Hf, Hb, Hz1. reflexivity. }
  split; [exact H1 |].
  cbn [decompress_chunks]. rewrite H1.
  unfold decompress at 1. cbn [_first_try _data _obj negb]. rewrite Hz2.
  unfold obj_decompress. cbn [_obj _first_try _data].
  destruct (zobj_decompress (zlib_decompressobj (- MAX_WBITS)) ((buf ++ c1) ++ c2))
    as [[out o]|]; reflexivity.
Qed.

Lemma X7_late_fallback_reads_whole_buffer_witness :
  @decompress_chunks toy_zlib DeflateDecoder_bound [[Byte.x78; Byte.x41]; [Byte.x42]]
  = (@Build_DeflateDecoder toy_zlib false None (- MAX_WBITS)%Z,
     [Ok [Byte.x41]; Ok [Byte.x78; Byte.x41; Byte.x42]]).
Proof.
  exact (proj2 (@X7_late_fallback_reads_whole_buffer toy_zlib DeflateDecoder_bound
                  [] [Byte.x78; Byte.x41] [Byte.x42] [Byte.x41] MAX_WBITS
                  eq_refl eq_refl eq_refl eq_refl)).
Defined.

(** X8.  Once a decoder has left its first-try state it never returns to
    it and never buffers again: every later call is the call on the
    object it holds, and an error of that object is raised as it is. *)
Theorem X8_after_fallback_delegates `{Zlib}
  (d : DeflateDecoder) (chunks : list bytes) :
  _first_try d = false ->
  decompress_chunks d chunks = obj_decompress_chunks d chunks /\
  _first_try (fst (decompress_chunks d chunks)) = false /\
  _data (fst (decompress_chunks d chunks)) = _data d /\
  length (snd (decompress_chunks d chunks)) = length chunks.
Proof.
  revert d. induction chunks as [|data rest IH]; intros d Hf.
  - repeat split; assumption.
  - cbn [decompress_chunks obj_decompress_chunks].
    rewrite (decompress_after_fallback d data Hf).
    assert (Hstep : _first_try (fst (obj_decompress d data)) = false /\
                    _data (fst (obj_decompress d data)) = _data d).
    { unfold obj_decompress.
      destruct (zobj_decompress (_obj d) data) as [[out o]|];
        split; first [exact Hf | reflexivity]. }
    destruct (obj_decompress d data) as [d1 r1]. cbn [fst] in Hstep.
    destruct Hstep as [Hf1 Hd1].
    destruct (IH d1 Hf1) as (Heq & Hf' & Hd' & Hlen).
    rewrite Heq in *.
    destruct (obj_decompress_chunks d1 rest) as [d2 rs]. cbn [fst snd] in *.
    repeat split; [assumption | congruence | simpl; congruence].
Qed.

Lemma X8_after_fallback_delegates_witness :
  let d := fst (@decompress toy_zlib DeflateDecoder_bound [Byte.x41]) in
  _first_try d = false /\
  snd (@decompress_chunks toy_zlib d [[Byte.x42]; [Byte.x78]])
  = [Ok [Byte.x42]; Ok [Byte.x78]] /\
  _first_try (fst (@decompress_chunks toy_zlib d [[Byte.x42]; [Byte.x78]])) = false.
Proof.
  intros d.
  assert (Hf : _first_try d = false) by reflexivity.
  destruct (@X8_after_fallback_delegates toy_zlib d [[Byte.x42]; [Byte.x78]] Hf)
    as (Heq & Hf' & _).
  split; [exact Hf |]. split; [rewrite Heq; reflexivity | exact Hf'].
Defined.

(** ** The current state *)

(** X9.  On a browser that satisfies the history invariants, [state]
    raises "No state" exactly when there are no states, never raises "Index
    out of range", and otherwise returns the state at the cursor. *)
Theorem X9_state_of_invariants `{Bs4} (self : RoboBrowser) :
  history_invariants self ->
  (state self = Raise NoStateError <-> _states self = []) /\
  state self <> Raise IndexOutOfRangeError /\
  (_states self <> [] ->
   exists st, state self = Ok st /\
              _states self !! Z.to_nat (_cursor self) = Some st).
Proof.
  intros (Hc & Hempty & _). unfold state.
  destruct (Z.eqb_spec (_cursor self) (-1)) as [Heq|Hne].
  - split; [split; [intros _; apply Hempty; exact Heq | reflexivity] |].
    split; [discriminate |].
    intros Hnil. exfalso. apply Hnil, Hempty, Heq.
  - rewrite getitem_lookup by lia.
    destruct (lookup_lt_is_Some_2 (_states self) (Z.to_nat (_cursor self)))
      as [st Hst]; [lia |].
    rewrite Hst.
    split; [split; [discriminate | intros Hnil; exfalso; apply Hne, Hempty, Hnil] |].
    split; [discriminate |].
    intros _. exists st. split; reflexivity.
Qed.

Lemma X9_state_of_invariants_witness :
  history_invariants two_pages /\
  exists st, state two_pages = Ok st /\
             _states two_pages !! Z.to_nat (_cursor two_pages) = Some st.
Proof.
  split; [exact (proj1 two_pages_invariants) |].
  apply (@X9_state_of_invariants toy_bs4 two_pages (proj1 two_pages_invariants)).
  intros Hnil. apply (f_equal length) in Hnil. vm_compute in Hnil. discriminate.
Defined.

(** X10.  A browser that has not navigated yet has no state: [state] and
    [url] raise "No state", and [submit_form] and [follow_link] on a link
    with an [href] raise "No state" without calling the transport, the
    browser being returned as it was.  A link without [href] raises the
    missing-attribute error first, on any browser. *)
Theorem X10_fresh_browser_has_no_state `{Zlib} `{Bs4} `{UrlLib}
  session parser user_agent history timeout redirects
  (other : RoboBrowser) (link : gmap string string) (form : Form)
  (submit : option string) (hs : PyHeaders) (net : Transfer) :
  let b := RoboBrowser_init session parser user_agent history timeout redirects in
  state b = Raise NoStateError /\
  browser_url b = Raise NoStateError /\
  submit_form b form submit net = (b, Raise NoStateError) /\
  follow_link b link hs net
  = (b, Raise (match link !! "href"%string with
               | Some _ => NoStateError
               | None => MissingAttributeError
               end)) /\
  (link !! "href"%string = None ->
   follow_link other link hs net = (other, Raise MissingAttributeError)).
Proof.
  intros b.
  assert (Hst : state b = Raise NoStateError) by reflexivity.
  split; [exact Hst |].
  split; [unfold browser_url; rewrite Hst; reflexivity |].
  split; [unfold submit_form, _build_url, browser_url; rewrite Hst; reflexivity |].
  split.
  - unfold follow_link, _build_url, browser_url. rewrite Hst.
    destruct (link !! "href"%string); reflexivity.
  - intros Hno. unfold follow_link. rewrite Hno. reflexivity.
Qed.

Lemma X10_fresh_browser_has_no_state_witness :
  @follow_link toy_zlib toy_bs4 toy_urllib one_page ∅ NoHeaders (page "http://h/a" [])
  = (one_page, Raise MissingAttributeError).
Proof.
  apply (@X10_fresh_browser_has_no_state toy_zlib toy_bs4 toy_urllib
           None None None HistTrue None true one_page ∅ post_form None NoHeaders
           (page "http://h/a" [])).
  reflexivity.
Defined.

(** ** Operations that raise, and moves that undo each other *)

(** X11.  An operation that raises leaves the history as it was: the
    states, the cursor and the configuration are unchanged, whether the
    operation is a navigation or a move, and whatever it raises: a transport
    or decoding error, the [TypeError] of a form sent with [get], or an error
    of the history itself. *)
Theorem X11_raise_keeps_history `{Zlib} `{Bs4} `{UrlLib}
  (self : RoboBrowser) (op : Op) (e : exn) :
  snd (apply_op self op) = Raise e ->
  _states (fst (apply_op self op)) = _states self /\
  _cursor (fst (apply_op self op)) = _cursor self /\
  same_config self (fst (apply_op self op)).
Proof.
  intros Hr.
  destruct (is_navigation op) eqn:Hnav.
  - pose proof (apply_op_navigated self op Hnav) as Hn.
    rewrite Hr in Hn.
    destruct Hn as [(e' & s & _ & [-> | ->]) | (s & Hok & _)];
      [| | discriminate]; repeat split.
  - assert (Hmove : exists n, apply_op self op = _traverse self n).
    { destruct op; try discriminate; simpl; eauto. }
    destruct Hmove as [n Hmove]. rewrite Hmove in *.
    destruct (traverse_cases self n) as [-> | [-> | [_ Hok]]];
      [repeat split | repeat split |].
    rewrite Hok in Hr. discriminate.
Qed.

Lemma X11_raise_keeps_history_witness :
  _states (fst (@apply_op toy_zlib toy_bs4 toy_urllib two_pages (OpForward 1)))
  = _states two_pages /\
  _states (fst (@apply_op toy_zlib toy_bs4 toy_urllib two_pages
                  (OpOpen "http://h/z" NoHeaders deflate_page)))
  = _states two_pages /\
  _states (fst (@apply_op toy_zlib toy_bs4 toy_urllib two_pages
                  (OpSubmitForm put_form None (page "http://h/save" []))))
  = _states two_pages.
Proof.
  split; [| split].
  - apply (@X11_raise_keeps_history toy_zlib toy_bs4 toy_urllib two_pages
             (OpForward 1) IndexOutOfRangeError eq_refl).
  - apply (@X11_raise_keeps_history toy_zlib toy_bs4 toy_urllib two_pages
             (OpOpen "http://h/z" NoHeaders deflate_page)
             (NameError "binary_type") eq_refl).
  - apply (@X11_raise_keeps_history toy_zlib toy_bs4 toy_urllib two_pages
             (OpSubmitForm put_form None (page "http://h/save" []))
             TypeError).
    vm_compute. reflexivity.
Defined.

Section Moves.
Context `{Bs4}.

Lemma traverse_ok (self : RoboBrowser) (n : Z) :
  snd (_traverse self n) = Ok tt ->
  history_falsy (history self) = false /\
  (0 <= _cursor self + n < Z.of_nat (length (_states self)))%Z /\
  fst (_traverse self n)
  = with_history_stack self (_states self) (_cursor self + n).
Proof.
  unfold _traverse.
  destruct (history_falsy (history self)); [discriminate |].
  destruct (Z.geb_spec (_cursor self + n) (Z.of_nat (length (_states self))));
    destruct (Z.ltb_spec (_cursor self + n) 0); simpl; try discriminate.
  intros _. split; [reflexivity | split; [lia | reflexivity]].
Qed.

Lemma traverse_in_range (self : RoboBrowser) (n : Z) :
  history_falsy (history self) = false ->
  (0 <= _cursor self + n < Z.of_nat (length (_states self)))%Z ->
  _traverse self n
  = (with_history_stack self (_states self) (_cursor self + n), Ok tt).
Proof.
  intros Hon Hr. unfold _traverse. rewrite Hon.
  destruct (Z.geb_spec (_cursor self + n) (Z.of_nat (length (_states self))));
    destruct (Z.ltb_spec (_cursor self + n) 0); simpl; try lia.
  reflexivity.
Qed.

Lemma with_history_stack_same (self : RoboBrowser) :
  with_history_stack self (_states self) (_cursor self) = self.
Proof. destruct self; reflexivity. Qed.
End Moves.

(** X12.  A move that returns is undone by the opposite move: after
    [back n] returns, [forward n] returns and gives back the very browser,
    and likewise [back n] after [forward n], provided the cursor was on a
    state to begin with. *)
Theorem X12_back_forward_round_trip `{Bs4} (self : RoboBrowser) (n : Z) :
  (0 <= _cursor self < Z.of_nat (length (_states self)))%Z ->
  (snd (back self n) = Ok tt ->
   forward (fst (back self n)) n = (self, Ok tt)) /\
  (snd (forward self n) = Ok tt ->
   back (fst (forward self n)) n = (self, Ok tt)).
Proof.
  intros Hc.
  assert (Hgen : forall a b : Z,
             (a + b = 0)%Z ->
             snd (_traverse self a) = Ok tt ->
             _traverse (fst (_traverse self a)) b = (self, Ok tt)).
  { intros a b Hab Hok.
    apply traverse_ok in Hok as (Hon & Hr & ->).
    rewrite traverse_in_range; cbn [with_history_stack history _states _cursor];
      [| exact Hon | lia].
    replace (_cursor self + a + b)%Z with (_cursor self) by lia.
    destruct self; reflexivity. }
  split; intros Hok; unfold back, forward in *; apply Hgen; (lia || exact Hok).
Qed.

Lemma X12_back_forward_round_trip_witness :
  forward (fst (back two_pages 1)) 1 = (two_pages, Ok tt).
Proof.
  apply (@X12_back_forward_round_trip toy_bs4 two_pages 1).
  - replace (_cursor two_pages) with 1%Z by (vm_compute; reflexivity).
    replace (length (_states two_pages)) with 2%nat by (vm_compute; reflexivity).
    lia.
  - reflexivity.
Defined.

(** X13.  Moves add up: after a move by [a] that returns, a move by [b]
    returns or raises as the single move by [a + b] does, and when it
    returns the browser is the same.  [back] by a negative count is
    [forward]. *)
Theorem X13_moves_compose `{Bs4} (self : RoboBrowser) (a b : Z) :
  snd (_traverse self a) = Ok tt ->
  snd (_traverse (fst (_traverse self a)) b) = snd (_traverse self (a + b)) /\
  (snd (_traverse self (a + b)) = Ok tt ->
   _traverse (fst (_traverse self a)) b = _traverse self (a + b)) /\
  back self (- a) = forward self a.
Proof.
  intros Hok. apply traverse_ok in Hok as (Hon & Hr & Hfst).
  assert (Hback : back self (- a) = forward self a).
  { unfold back, forward. f_equal. lia. }
  rewrite Hfst.
  set (mid := with_history_stack self (_states self) (_cursor self + a)).
  destruct (traverse_cases mid b) as [Hm | [Hm | [Hrm Hm]]].
  - unfold _traverse in Hm. cbn [mid with_history_stack history] in Hm.
    rewrite Hon in Hm. exfalso.
    destruct (_ || _) in Hm; discriminate Hm.
  - assert (Hout : ~ (0 <= _cursor self + (a + b) < Z.of_nat (length (_states self)))%Z).
    { intros Hin. rewrite (traverse_in_range mid b) in Hm;
        [discriminate Hm | exact Hon |].
      cbn [mid with_history_stack _states _cursor]. lia. }
    assert (Hsum : _traverse self (a + b) = (self, Raise IndexOutOfRangeError)).
    { destruct (traverse_cases self (a + b)) as [Hs | [Hs | [Hrs _]]];
        [| exact Hs | contradiction].
      unfold _traverse in Hs. rewrite Hon in Hs.
      destruct (_ || _) in Hs; discriminate Hs. }
    rewrite Hm, Hsum. cbn [snd].
    split; [reflexivity |]. split; [discriminate | exact Hback].
  - cbn [mid with_history_stack _states _cursor] in Hrm.
    rewrite Hm, (traverse_in_range self (a + b)) by (exact Hon || lia).
    cbn [snd mid with_history_stack session parser history _maxlen _states _cursor].
    replace (_cursor self + a + b)%Z with (_cursor self + (a + b))%Z by lia.
    split; [reflexivity |]. split; [reflexivity | exact Hback].
Qed.

Lemma X13_moves_compose_witness :
  let b3 := toy_run HistTrue [visit "a" []; visit "b" []; visit "c" []] in
  _traverse (fst (_traverse b3 (-2))) 1 = _traverse b3 (-1).
Proof.
  intros b3.
  apply (@X13_moves_compose toy_bs4 b3 (-2) 1 eq_refl). reflexivity.
Defined.

(** ** How many states a navigation leaves *)

Section Depth.
Context `{Zlib} `{Bs4} `{UrlLib}.

Lemma navigation_stack (self self' : RoboBrowser) (op : Op) :
  history_invariants self -> depth_ok self ->
  is_navigation op = true ->
  apply_op self op = (self', Ok tt) ->
  _states self'
  = drop (evicted self)
      (take (Z.to_nat (_cursor self + 1)) (_states self)) ++ [new_state self'] /\
  (evicted self <= Z.to_nat (_cursor self + 1))%nat /\
  _cursor self' = Z.of_nat (length (_states self')) - 1 /\
  same_config self self'.
Proof.
  intros Hinv Hd Hnav Hop.
  pose proof (apply_op_navigated self op Hnav) as Hn.
  rewrite Hop in Hn. simpl in Hn. apply navigated_ok in Hn as [s ->].
  set (b := with_session self s).
  assert (Hc : -1 <= _cursor b < Z.of_nat (length (_states b))) by exact (proj1 Hinv).
  assert (Hd' : depth_ok b) by exact Hd.
  destruct (update_state_stack b) as [Hs _]; [lia | exact Hd' |].
  pose proof (evicted_bound b Hc Hd') as Hev.
  pose proof (length_pushed b Hc) as Hl.
  unfold b in Hev, Hl. rewrite evicted_with_session in Hev.
  assert (Hle : (evicted self <= Z.to_nat (_cursor self + 1))%nat).
  { cbn [with_session _cursor] in Hl. lia. }
  split; [| split; [exact Hle | split]].
  - rewrite new_state_update_state, Hs. unfold b at 1.
    rewrite evicted_with_session. unfold pushed.
    cbn [b with_session _cursor _states].
    apply drop_app_le. rewrite length_take_le; [exact Hle |].
    cbn [b with_session _cursor _states] in Hc. lia.
  - apply update_state_cursor_last; assumption.
  - apply update_state_same_config.
Qed.
End Depth.

(** X14.  After a navigation that returns, from a browser that satisfies
    the invariants, the number of states is [cursor + 2] (the states up to
    the old cursor and the new one), cut down to the configured depth when
    there is one. *)
Theorem X14_length_after_navigation `{Zlib} `{Bs4} `{UrlLib}
  (self self' : RoboBrowser) (op : Op) :
  history_invariants self -> depth_ok self ->
  is_navigation op = true ->
  apply_op self op = (self', Ok tt) ->
  Z.of_nat (length (_states self'))
  = match _maxlen self with
    | Some m => Z.min (_cursor self + 2) m
    | None => _cursor self + 2
    end.
Proof.
  intros Hinv Hd Hnav Hop.
  destruct (navigation_stack self self' op Hinv Hd Hnav Hop) as (Hs & Hle & _).
  destruct Hinv as (Hc & _).
  rewrite Hs, length_app, length_drop, length_take_le by lia. cbn [length].
  revert Hle. unfold evicted, pushed.
  rewrite length_app, length_take_le by lia. cbn [length].
  destruct (_maxlen self) as [m|] eqn:Hm; [specialize (Hd m Hm) |]; lia.
Qed.

Lemma X14_length_after_navigation_witness :
  length (_states (fst (@apply_op toy_zlib toy_bs4 toy_urllib two_pages
                          (visit "c" [Byte.x43]))))
  = 2%nat.
Proof.
  pose proof (@X14_length_after_navigation toy_zlib toy_bs4 toy_urllib two_pages
                (fst (@apply_op toy_zlib toy_bs4 toy_urllib two_pages
                        (visit "c" [Byte.x43])))
                (visit "c" [Byte.x43])
                (proj1 two_pages_invariants) (proj2 two_pages_invariants)
                eq_refl ltac:(vm_compute; reflexivity)) as Hlen.
  replace (_maxlen two_pages) with (Some 2) in Hlen by (vm_compute; reflexivity).
  replace (_cursor two_pages) with 1 in Hlen by (vm_compute; reflexivity).
  lia.
Defined.

(** X15.  With history turned off by a falsy [history] argument the
    browser holds at most one state at any time, and after every navigation
    that returns it holds exactly the new page, with the cursor on it. *)
Theorem X15_history_off_keeps_one_page `{Zlib} `{Bs4} `{UrlLib}
  session parser user_agent history timeout redirects
  (ops : list Op) (op : Op) (b' : RoboBrowser) :
  history_falsy history = true ->
  let b := run (RoboBrowser_init session parser user_agent history timeout redirects)
             ops in
  (length (_states b) <= 1)%nat /\
  (is_navigation op = true -> apply_op b op = (b', Ok tt) ->
   _states b' = [new_state b'] /\ _cursor b' = 0).
Proof.
  intros Hoff b.
  pose proof (history_falsy_arg_ok history Hoff) as Hok.
  destruct (run_preserves ops
              (RoboBrowser_init session parser user_agent history timeout redirects)
              (init_invariants _ _ _ _ _ _ Hok) (init_depth_ok _ _ _ _ _ _ Hok))
    as [Hinv Hcfg].
  fold b in Hinv, Hcfg.
  assert (Hd : depth_ok b).
  { eapply depth_ok_same_config; [exact Hcfg |]. apply init_depth_ok. exact Hok. }
  assert (Hm : _maxlen b = Some 1).
  { destruct Hcfg as (-> & _). simpl.
    destruct history as [| | |k]; simpl in *; try discriminate; try reflexivity.
    rewrite Hoff. reflexivity. }
  pose proof (proj2 (proj2 Hinv) 1 Hm) as Hlen.
  split; [lia |].
  intros Hnav Hop.
  destruct (navigation_stack b b' op Hinv Hd Hnav Hop) as (Hs & Hle & Hc & _).
  pose proof (step_preserves b op Hinv Hd) as [Hinv' (Hm' & _)].
  unfold step in Hinv', Hm'. rewrite Hop in Hinv', Hm'. cbn [fst] in Hinv', Hm'.
  rewrite Hm in Hm'.
  pose proof (proj2 (proj2 Hinv') 1 Hm') as Hone.
  rewrite Hs in Hone. rewrite length_app in Hone. cbn [length] in Hone.
  assert (Hnil : drop (evicted b) (take (Z.to_nat (_cursor b + 1)) (_states b)) = []).
  { apply nil_length_inv. lia. }
  rewrite Hnil in Hs. cbn [app] in Hs.
  split; [exact Hs |]. rewrite Hc, Hs. reflexivity.
Qed.

Lemma X15_history_off_keeps_one_page_witness :
  let b := toy_run HistNone [visit "a" [Byte.x41]; visit "b" [Byte.x42]] in
  let b' := fst (@apply_op toy_zlib toy_bs4 toy_urllib b (visit "c" [Byte.x43])) in
  history_falsy HistNone = true /\
  _states b' = [new_state b'] /\ _cursor b' = 0.
Proof.
  intros b b'. split; [reflexivity |].
  apply (@X15_history_off_keeps_one_page toy_zlib toy_bs4 toy_urllib
           None (Some "html.parser"%string) None HistNone None true
           [visit "a" [Byte.x41]; visit "b" [Byte.x42]] (visit "c" [Byte.x43]) b'
           eq_refl).
  - reflexivity.
  - vm_compute. reflexivity.
Defined.

(** X16.  As long as only navigations are made (no [back], no
    [forward]), whether they return or raise, the cursor stays on the last
    state: after the run it is the number of states minus one. *)
Theorem X16_navigation_only_cursor_at_tail `{Zlib} `{Bs4} `{UrlLib}
  session parser user_agent history timeout redirects (ops : list Op) :
  history_arg_ok history ->
  forallb is_navigation ops = true ->
  let b := run (RoboBrowser_init session parser user_agent history timeout redirects)
             ops in
  _cursor b = Z.of_nat (length (_states b)) - 1.
Proof.
  intros Hok Hnav b. unfold b. clear b.
  pose proof (init_invariants session parser user_agent history timeout redirects Hok)
    as Hinv.
  pose proof (init_depth_ok session parser user_agent history timeout redirects Hok)
    as Hd.
  assert (Htail : _cursor (RoboBrowser_init session parser user_agent history
                             timeout redirects)
                  = Z.of_nat (length (_states (RoboBrowser_init session parser
                                                 user_agent history timeout redirects)))
                    - 1) by reflexivity.
  revert Hinv Hd Htail.
  generalize (RoboBrowser_init session parser user_agent history timeout redirects).
  induction ops as [|op ops IH]; intros self Hinv Hd Htail; [exact Htail |].
  cbn [forallb] in Hnav. apply andb_prop in Hnav as [Hop Hrest].
  cbn [run fold_left]. fold (run (step self op) ops).
  destruct (step_preserves self op Hinv Hd) as [Hinv' Hcfg].
  apply (IH Hrest); [exact Hinv' | exact (depth_ok_same_config _ _ Hcfg Hd) |].
  unfold step.
  pose proof (apply_op_navigated self op Hop) as Hn.
  destruct Hn as [(e & s & _ & [-> | ->]) | (s & _ & ->)].
  - exact Htail.
  - exact Htail.
  - apply update_state_cursor_last; [exact (proj1 Hinv) | exact Hd].
Qed.

Lemma X16_navigation_only_cursor_at_tail_witness :
  _cursor (toy_run (HistInt 2)
             [visit "a" []; OpOpen "http://h/z" NoHeaders deflate_page;
              visit "b" []; visit "c" []])
  = 1.
Proof.
  pose proof (@X16_navigation_only_cursor_at_tail toy_zlib toy_bs4 toy_urllib
                None (Some "html.parser"%string) None (HistInt 2) None true
                [visit "a" []; OpOpen "http://h/z" NoHeaders deflate_page;
                 visit "b" []; visit "c" []]
                ltac:(simpl; lia) eq_refl) as Htail.
  cbv zeta in Htail. fold (toy_browser (HistInt 2)) in Htail.
  unfold toy_run. rewrite Htail.
  vm_compute. reflexivity.
Defined.

(** ** What the new page state holds *)

Section Snapshot.
Context `{Zlib} `{Bs4} `{UrlLib}.

Lemma do_request_ok_transfer (s : RoboCurl) u hs net body :
  snd (_do_request s u hs net) = Ok body -> exists raw, t_body net = Some raw.
Proof.
  intros Hok. destruct (t_body net) as [raw|] eqn:Hbody; [eauto |].
  destruct (do_request_failed s u hs net Hbody) as (Hr & _).
  rewrite Hr in Hok. discriminate.
Qed.

(** A navigation that returns made one request that returned, and the
    browser's session is the one that request left. *)
Lemma navigation_request (self self' : RoboBrowser) (op : Op) net :
  op_transfer op = Some net ->
  apply_op self op = (self', Ok tt) ->
  exists s0 u0 hs0 body,
    session self' = fst (_do_request s0 u0 hs0 net) /\
    snd (_do_request s0 u0 hs0 net) = Ok body.
Proof.
  assert (Hopen : forall u hs,
             open self u hs net = (self', Ok tt) ->
             exists s0 u0 hs0 body,
               session self' = fst (_do_request s0 u0 hs0 net) /\
               snd (_do_request s0 u0 hs0 net) = Ok body).
  { intros u hs Hop. destruct (open_session self u hs net) as [Hs Hok].
    rewrite Hop in Hs, Hok. cbn [fst snd] in Hs, Hok.
    destruct (Hok eq_refl) as [body Hbody].
    exists (with_c (session self) (setopt (c (session self)) OptHttpGet)), u, hs, body.
    split; [exact Hs | exact Hbody]. }
  destruct op as [u hs n | link hs n | form submit n | k | k]; simpl;
    try discriminate; intros [= ->] Hop.
  - eapply Hopen; exact Hop.
  - unfold follow_link in Hop.
    destruct (link !! "href"%string) as [href|]; [| discriminate].
    destruct (_build_url self href) as [target|e]; [| discriminate].
    eapply Hopen; exact Hop.
  - destruct (submit_form_has_state _ _ _ _ _ Hop) as [st Hst].
    destruct (submit_form_session self form submit net st Hst) as [Hs Hok].
    rewrite Hop in Hs, Hok. cbn [fst snd] in Hs, Hok.
    destruct (Hok eq_refl) as [body Hbody].
    destruct (string_eqb (upper (method form)) "POST").
    + unfold session_post, post in Hs, Hbody. cbv zeta in Hs, Hbody.
      eexists _, _, _, body. split; [exact Hs | exact Hbody].
    + unfold session_get, _do_request_dict in Hs, Hbody.
      destruct (submit_params form submit) as [|kv rest]; [| discriminate Hbody].
      eexists _, _, _, body. split; [exact Hs | exact Hbody].
Qed.
End Snapshot.

(** X17.  After a navigation that returns, the current state is a fresh
    snapshot of the session: its URL is the effective URL the transfer ended
    on, not the URL that was asked for; its headers are the dict parsed from
    the transfer's header block; its content is the session's payload; and
    nothing is parsed yet. *)
Theorem X17_state_snapshot `{Zlib} `{Bs4} `{UrlLib}
  (self self' : RoboBrowser) (op : Op) (net : Transfer) :
  history_invariants self -> depth_ok self ->
  op_transfer op = Some net ->
  apply_op self op = (self', Ok tt) ->
  exists st,
    state self' = Ok st /\
    url st = t_url net /\ resp_url (response st) = t_url net /\
    browser_url self' = Ok (t_url net) /\
    resp_headers (response st) = header_dict_from ∅ (split_crlf (t_hdr net)) /\
    content (response st) = payload (session self') /\
    _parsed st = None.
Proof.
  intros Hinv Hd Hnet Hop.
  assert (Hnav : is_navigation op = true) by (destruct op; simpl in *; congruence).
  pose proof (navigation_current self self' op Hinv Hd Hnav Hop) as Hcur.
  destruct (navigation_request self self' op net Hnet Hop)
    as (s0 & u0 & hs0 & body & Hs & Hbody).
  destruct (do_request_ok_transfer s0 u0 hs0 net body Hbody) as [raw Hraw].
  destruct (do_request_completed_fields s0 u0 hs0 net raw Hraw)
    as ((_ & Hd' & _) & (_ & Heff & _) & _).
  rewrite <- Hs in Hd', Heff.
  exists (new_state self'). split; [exact Hcur |].
  unfold browser_url. rewrite Hcur.
  unfold new_state, RoboState_init, RoboResponse_init, session_url.
  cbn [url response resp_url resp_headers content _parsed].
  rewrite Heff, Hd'. repeat split.
Qed.

Lemma X17_state_snapshot_witness :
  let op := OpOpen "http://h/old" NoHeaders (page "http://h/moved" [Byte.x43]) in
  @browser_url toy_bs4 (fst (@apply_op toy_zlib toy_bs4 toy_urllib two_pages op))
  = Ok "http://h/moved"%string.
Proof.
  intros op.
  destruct (@X17_state_snapshot toy_zlib toy_bs4 toy_urllib two_pages
              (fst (@apply_op toy_zlib toy_bs4 toy_urllib two_pages op)) op
              (page "http://h/moved" [Byte.x43])
              (proj1 two_pages_invariants) (proj2 two_pages_invariants)
              eq_refl ltac:(vm_compute; reflexivity))
    as (st & _ & _ & _ & Hurl & _).
  exact Hurl.
Defined.

(** ** The params of a submitted form *)

Section Dicts.

Lemma dict_get_set (d : list (string * string)) (k v k' : string) :
  dict_get (dict_set d k v) k' = if string_eqb k' k then Some v else dict_get d k'.
Proof.
  unfold string_eqb.
  induction d as [|[k0 v0] rest IH]; cbn [dict_set dict_get].
  - unfold string_eqb. destruct (bool_decide (k' = k)); reflexivity.
  - unfold string_eqb in *.
    destruct (bool_decide_reflect (k = k0)) as [-> | Hne]; cbn [dict_get];
      unfold string_eqb.
    + destruct (bool_decide (k' = k0)); reflexivity.
    + destruct (bool_decide_reflect (k' = k0)) as [-> | Hne'].
      * rewrite bool_decide_eq_false_2 by congruence. reflexivity.
      * exact IH.
Qed.

Lemma dict_set_keys (d : list (string * string)) (k v : string) :
  map fst (dict_set d k v)
  = if bool_decide (k ∈ map fst d) then map fst d else map fst d ++ [k].
Proof.
  induction d as [|[k0 v0] rest IH]; cbn [dict_set map fst].
  - rewrite bool_decide_eq_false_2 by (intros Hin; inversion Hin). reflexivity.
  - unfold string_eqb. destruct (bool_decide_reflect (k = k0)) as [-> | Hne].
    + rewrite bool_decide_eq_true_2 by (left; reflexivity). reflexivity.
    + cbn [map fst]. rewrite IH.
      destruct (bool_decide_reflect (k ∈ map fst rest)) as [Hin | Hnin].
      * rewrite bool_decide_eq_true_2 by (right; exact Hin). reflexivity.
      * rewrite bool_decide_eq_false_2; [reflexivity |].
        intros Hin. apply elem_of_cons in Hin as [-> | Hin]; contradiction.
Qed.

Lemma dict_of_pairs_snoc (data : list (string * string)) (k v : string) :
  dict_of_pairs (data ++ [(k, v)]) = dict_set (dict_of_pairs data) k v.
Proof. unfold dict_of_pairs. rewrite fold_left_app. reflexivity. Qed.

Lemma dict_of_pairs_keys_nodup (data : list (string * string)) :
  NoDup (map fst (dict_of_pairs data)).
Proof.
  induction data as [|[k v] data IH] using rev_ind; [constructor |].
  rewrite dict_of_pairs_snoc, dict_set_keys.
  destruct (bool_decide_reflect (k ∈ map fst (dict_of_pairs data))) as [Hin | Hnin];
    [exact IH |].
  apply NoDup_app. split; [exact IH |]. split.
  - intros x Hx Hk. apply list_elem_of_singleton in Hk as ->. contradiction.
  - apply NoDup_singleton.
Qed.

Lemma dict_of_pairs_get (data : list (string * string)) (k v : string) :
  dict_get (dict_of_pairs data) k = Some v <->
  exists before after, data = before ++ (k, v) :: after /\ k ∉ map fst after.
Proof.
  revert v. induction data as [|[k0 v0] data IH] using rev_ind; intros v.
  - split; [discriminate |].
    intros (before & after & Heq & _). destruct before; discriminate.
  - rewrite dict_of_pairs_snoc, dict_get_set. unfold string_eqb. split.
    + destruct (bool_decide_reflect (k = k0)) as [-> | Hne].
      * intros [= ->]. exists data, []. split; [reflexivity |].
        intros Hin. inversion Hin.
      * intros Hget. apply IH in Hget as (before & after & -> & Hnin).
        exists before, (after ++ [(k0, v0)]).
        split; [rewrite <- app_assoc; reflexivity |].
        rewrite map_app. intros Hin. apply elem_of_app in Hin as [Hin | Hin];
          [contradiction |].
        apply list_elem_of_singleton in Hin. contradiction.
    + intros (before & after & Heq & Hnin).
      destruct after as [|[k1 v1] after _] using rev_ind.
      * apply app_inj_tail in Heq as [-> [= -> ->]].
        rewrite bool_decide_eq_true_2 by reflexivity. reflexivity.
      * rewrite app_comm_cons, app_assoc in Heq.
        apply app_inj_tail in Heq as [-> [= <- <-]].
        rewrite map_app in Hnin.
        destruct (bool_decide_reflect (k = k0)) as [-> | Hne].
        -- exfalso. apply Hnin. apply elem_of_app. right. left.
        -- apply IH. exists before, after. split; [reflexivity |].
           intros Hin. apply Hnin. apply elem_of_app. left. exact Hin.
Qed.

Lemma dict_of_pairs_get_none (data : list (string * string)) (k : string) :
  dict_get (dict_of_pairs data) k = None <-> k ∉ map fst data.
Proof.
  induction data as [|[k0 v0] data IH] using rev_ind.
  - split; [intros _ Hin; inversion Hin | reflexivity].
  - rewrite dict_of_pairs_snoc, dict_get_set, map_app. unfold string_eqb.
    destruct (bool_decide_reflect (k = k0)) as [-> | Hne].
    + split; [discriminate |]. intros Hnin. exfalso. apply Hnin.
      apply elem_of_app. right. left.
    + rewrite IH. split.
      * intros Hnin Hin. apply elem_of_app in Hin as [Hin | Hin]; [contradiction |].
        apply list_elem_of_singleton in Hin. contradiction.
      * intros Hnin Hin. apply Hnin. apply elem_of_app. left. exact Hin.
Qed.
End Dicts.

(** X18.  The params [submit_form] builds from the serialized fields hold
    each field name once: the value kept for a name is the one of its last
    occurrence, earlier values of a repeated name are lost, and a name is
    absent exactly when no field has it. *)
Theorem X18_params_keep_last_value `{UrlLib}
  (form : Form) (submit : option string) :
  let data := serialize form submit (upper (method form)) in
  let params := submit_params form submit in
  NoDup (map fst params) /\
  (forall k v,
      dict_get params k = Some v <->
      exists before after, data = before ++ (k, v) :: after /\ k ∉ map fst after) /\
  (forall k, dict_get params k = None <-> k ∉ map fst data).
Proof.
  intros data params. unfold params, submit_params. fold data.
  split; [apply dict_of_pairs_keys_nodup |].
  split; [intros k v; apply dict_of_pairs_get | intros k; apply dict_of_pairs_get_none].
Qed.

(** ** What a submitted form asks the transport *)

Section SubmitRequest.
Context `{Zlib} `{Bs4} `{UrlLib}.

End SubmitRequest.

Section SubmitTypeError.
Context `{Zlib} `{Bs4} `{UrlLib}.

End SubmitTypeError.



(** ** The parsed document of the current page *)

Section BrowserParsed.
Context `{Bs4}.

Lemma getitem_setitem {A} (l : list A) (i : Z) (x y : A) :
  getitem l i = Some y ->
  getitem (setitem l i x) i = Some x /\
  length (setitem l i x) = length l /\
  setitem l i y = l.
Proof.
  unfold getitem, setitem.
  destruct (Z.ltb_spec i 0).
  - destruct (Z.ltb_spec (Z.of_nat (length l) + i) 0); [discriminate |].
    intros Hget. pose proof (lookup_lt_Some _ _ _ Hget) as Hlt.
    rewrite length_insert.
    destruct (Z.ltb_spec (Z.of_nat (length l) + i) 0); [lia |].
    split; [apply list_lookup_insert_eq; exact Hlt |].
    split; [reflexivity | apply list_insert_id; exact Hget].
  - intros Hget. pose proof (lookup_lt_Some _ _ _ Hget) as Hlt.
    rewrite length_insert.
    split; [apply list_lookup_insert_eq; exact Hlt |].
    split; [reflexivity | apply list_insert_id; exact Hget].
Qed.
End BrowserParsed.

(** X20.  The first [parsed] on a page that was not parsed yet calls the
    constructor once, on the page's content and the browser's parser, and
    stores the handle in the state kept in the history.  Asking again, at
    once or after going back and forward to the same page, returns the same
    handle with no further call and leaves the browser as it is.  The
    states keep their number and the cursor its place. *)
Theorem X20_browser_parsed_cached `{Bs4}
  (self : RoboBrowser) (st : RoboState) (calls : list ParseCall) (n : Z) :
  history_invariants self ->
  state self = Ok st ->
  _parsed st = None ->
  let doc := BeautifulSoup (content (response st)) (parser self) in
  let calls1 := calls ++ [(content (response st), parser self)] in
  let b1 := fst (fst (browser_parsed self calls)) in
  browser_parsed self calls = (b1, Ok doc, calls1) /\
  browser_parsed b1 calls1 = (b1, Ok doc, calls1) /\
  length (_states b1) = length (_states self) /\ _cursor b1 = _cursor self /\
  (snd (back b1 n) = Ok tt ->
   browser_parsed (fst (forward (fst (back b1 n)) n)) calls1 = (b1, Ok doc, calls1)).
Proof.
  intros Hinv Hst Hnone doc calls1 b1.
  assert (Hcur : _cursor self <> -1 /\ getitem (_states self) (_cursor self) = Some st).
  { unfold state in Hst. destruct (Z.eqb_spec (_cursor self) (-1)); [discriminate |].
    destruct (getitem (_states self) (_cursor self)); [| discriminate].
    injection Hst as ->. split; [assumption | reflexivity]. }
  destruct Hcur as [Hne Hget].
  set (st' := {| response := response st; url := url st; _parsed := Some doc |}).
  assert (Hfirst : browser_parsed self calls
                   = (with_history_stack self
                        (setitem (_states self) (_cursor self) st') (_cursor self),
                      Ok doc, calls1)).
  { unfold browser_parsed, parsed. rewrite Hst, Hnone. reflexivity. }
  assert (Hb1 : b1 = with_history_stack self
                       (setitem (_states self) (_cursor self) st') (_cursor self)).
  { unfold b1. rewrite Hfirst. reflexivity. }
  destruct (getitem_setitem (_states self) (_cursor self) st' st Hget)
    as (Hget' & Hlen & _).
  assert (Hst1 : state b1 = Ok st').
  { rewrite Hb1. unfold state. cbn [with_history_stack _cursor _states].
    destruct (Z.eqb_spec (_cursor self) (-1)); [contradiction |].
    rewrite Hget'. reflexivity. }
  assert (Hagain : browser_parsed b1 calls1 = (b1, Ok doc, calls1)).
  { unfold browser_parsed, parsed. rewrite Hst1. cbn [st' _parsed].
    f_equal. f_equal.
    destruct (getitem_setitem (_states b1) (_cursor b1) st' st') as (_ & _ & Hid).
    - unfold state in Hst1.
      destruct (Z.eqb_spec (_cursor b1) (-1)); [discriminate |].
      destruct (getitem (_states b1) (_cursor b1)); [| discriminate].
      injection Hst1 as ->. reflexivity.
    - fold st'. rewrite Hid. destruct b1; reflexivity. }
  split; [rewrite Hfirst, Hb1; reflexivity |].
  split; [exact Hagain |].
  split; [rewrite Hb1; exact Hlen |].
  split; [rewrite Hb1; reflexivity |].
  intros Hback. unfold back, forward in *.
  apply traverse_ok in Hback as (Hon & Hr & Hfst).
  rewrite Hfst.
  rewrite traverse_in_range; cbn [with_history_stack history _states _cursor];
    [| exact Hon |].
  - cbn [fst]. replace (_cursor b1 + -1 * n + n) with (_cursor b1) by lia.
    replace (with_history_stack
               (with_history_stack b1 (_states b1) (_cursor b1 + -1 * n))
               (_states b1) (_cursor b1)) with b1 by (destruct b1; reflexivity).
    exact Hagain.
  - assert (Hin : getitem (_states b1) (_cursor b1) = Some st').
    { unfold state in Hst1.
      destruct (Z.eqb_spec (_cursor b1) (-1)); [discriminate |].
      destruct (getitem (_states b1) (_cursor b1)); [| discriminate].
      injection Hst1 as ->. reflexivity. }
    assert (Hpos : 0 <= _cursor b1).
    { rewrite Hb1. cbn [with_history_stack _cursor]. destruct Hinv as (Hc & _). lia. }
    rewrite getitem_lookup in Hin by exact Hpos.
    apply lookup_lt_Some in Hin. lia.
Qed.

Lemma X20_browser_parsed_cached_witness :
  let st := new_state two_pages in
  let doc := @BeautifulSoup toy_bs4 (content (response st)) (parser two_pages) in
  let calls1 := [] ++ [(content (response st), parser two_pages)] in
  let b1 := fst (fst (@browser_parsed toy_bs4 two_pages [])) in
  state two_pages = Ok st /\
  @browser_parsed toy_bs4 two_pages [] = (b1, Ok doc, calls1) /\
  @browser_parsed toy_bs4 (fst (forward (fst (back b1 1)) 1)) calls1
  = (b1, Ok doc, calls1).
Proof.
  intros st doc calls1 b1.
  assert (Hst : state two_pages = Ok st) by (vm_compute; reflexivity).
  assert (Hnone : _parsed st = None) by (vm_compute; reflexivity).
  destruct (@X20_browser_parsed_cached toy_bs4 two_pages st [] 1
              (proj1 two_pages_invariants) Hst Hnone)
    as (Hfirst & _ & _ & _ & Hround).
  split; [exact Hst |]. split; [exact Hfirst |].
  apply Hround. vm_compute. reflexivity.
Defined.
